(** * Keyword-match verification of NIMAR search results

    A shallow embedding of the fuzzy keyword-match engine of
    [NIMAR/search/elastic-search-advance-search-timeline.py]
    (method [verify_keyword_in_media_cards] with its local functions
    [clean_text] and [check_keyword_match]), and of what stands around it:
    [fuzzy_keyword_match], the text searches [perform_text_search_in_area]
    and [perform_text_based_search], the configuration of
    [env_variables.py], [_load_config], [main] and [run], and the search of
    the one-time password in [NIMAR/auth/otp.py].

    Modelling conventions.
    - Python [str] values are Rocq strings; the embedding is exact for ASCII
      text (code points below 128).  A character of code 128 or more is kept
      as an opaque symbol: it is neither a word character, a digit nor a
      white space, and [lower] leaves it unchanged.
    - Python [int] values are [Z]; the one [float] of the scorer (the
      percentage of query words found) and the match percentage of the
      summary are exact rationals [Q].
    - The similarity functions of the [fuzzywuzzy] package are not part of the
      repository: they are the fields of the class [Fuzz].
    - A Python function that may raise returns a sum, exception on the left. *)

From Stdlib Require Import Bool Ascii String List ZArith QArith Lia Lqa Sorted.
Import ListNotations.

Local Close Scope Q_scope.
Local Open Scope string_scope.

(** ** Characters *)

Module Chars.

Definition code (c : ascii) : N := N_of_ascii c.

Definition between (lo hi : N) (c : ascii) : bool :=
  (lo <=? code c)%N && (code c <=? hi)%N.

(** [\d] on ASCII text. *)
Definition is_digit (c : ascii) : bool := between 48 57 c.

Definition is_upper (c : ascii) : bool := between 65 90 c.

Definition is_lower (c : ascii) : bool := between 97 122 c.

(** [\w] on ASCII text: letters, digits and the underscore. *)
Definition is_word (c : ascii) : bool :=
  is_digit c || is_upper c || is_lower c || (code c =? 95)%N.

(** [\s], and the white space of [str.strip] and [str.split]: the characters
    9 to 13, 28 to 31 and the space. *)
Definition is_space (c : ascii) : bool :=
  between 9 13 c || between 28 31 c || (code c =? 32)%N.

Definition to_lower (c : ascii) : ascii :=
  if is_upper c then ascii_of_N (code c + 32) else c.

(** [\b] between two neighbouring positions; [None] is an end of the string,
    which counts as a non-word character. *)
Definition word_at (c : option ascii) : bool :=
  match c with
  | Some a => is_word a
  | None => false
  end.

Definition boundary (before after : option ascii) : bool :=
  xorb (word_at before) (word_at after).

End Chars.

Import Chars.

(** ** Python string operations *)

(** [s.lower()] on ASCII text, where it maps character by character.  (On
    other text Python may change the number of code points; what is proved
    of lengths below is stated for ASCII text, or of the lower-cased
    text.) *)
Fixpoint lower (s : string) : string :=
  match s with
  | EmptyString => EmptyString
  | String c s' => String (to_lower c) (lower s')
  end.

(** [s.lstrip()] *)
Fixpoint lstrip (s : string) : string :=
  match s with
  | EmptyString => EmptyString
  | String c s' => if is_space c then lstrip s' else s
  end.

(** [s.rstrip()]: a character is dropped when it is a white space and nothing
    but white space follows it. *)
Fixpoint rstrip (s : string) : string :=
  match s with
  | EmptyString => EmptyString
  | String c s' =>
      match rstrip s' with
      | EmptyString => if is_space c then EmptyString else String c EmptyString
      | r => String c r
      end
  end.

(** [s.strip()] *)
Definition strip (s : string) : string := rstrip (lstrip s).

(** [sub in s] *)
Fixpoint contains (sub s : string) : bool :=
  prefix sub s ||
  match s with
  | EmptyString => false
  | String _ s' => contains sub s'
  end.

(** [s.split()]: the maximal runs of characters that are not white space.
    [cur] is the run being read, in reverse. *)
Definition rev_string (l : list ascii) : string :=
  string_of_list_ascii (rev l).

Definition flush (cur : list ascii) (acc : list string) : list string :=
  match cur with
  | [] => acc
  | _ => rev_string cur :: acc
  end.

Fixpoint split_aux (s : string) (cur : list ascii) : list string :=
  match s with
  | EmptyString => flush cur []
  | String c s' =>
      if is_space c then flush cur (split_aux s' [])
      else split_aux s' (c :: cur)
  end.

Definition split (s : string) : list string := split_aux s [].

(** [sep.join(l)] *)
Fixpoint join (sep : string) (l : list string) : string :=
  match l with
  | [] => EmptyString
  | [x] => x
  | x :: rest => x ++ sep ++ join sep rest
  end.

(** Truth value of a string: [if s] holds for the non-empty strings. *)
Definition truthy (s : string) : bool :=
  match s with
  | EmptyString => false
  | String _ _ => true
  end.

(** [a or b] on strings. *)
Definition or_else (a b : string) : string := if truthy a then a else b.

(** ** Regular-expression substitutions of [clean_text] *)

Module Regex.

(** [re.sub(pattern, '', s)] for a pattern that is given by its matcher:
    [m before s] is the length of the match that starts at the head of [s],
    where [before] is the character that precedes it (for [\b]).  Matches are
    taken leftmost and do not overlap; [skip] counts the characters of the
    current match that are still to be deleted. *)
Fixpoint sub_empty (m : option ascii -> string -> option nat)
    (before : option ascii) (s : string) (skip : nat) : string :=
  match s with
  | EmptyString => EmptyString
  | String c s' =>
      match skip with
      | S k => sub_empty m (Some c) s' k
      | O =>
          match m before s with
          | Some (S k) => sub_empty m (Some c) s' k
          | _ => String c (sub_empty m (Some c) s' 0)
          end
      end
  end.

(** [\b] at offset [i] of [s]; [before] precedes offset 0. *)
Definition boundary_at (before : option ascii) (s : string) (i : nat) : bool :=
  boundary (match i with O => before | S j => get j s end) (get i s).

Definition digit_at (s : string) (i : nat) : bool :=
  match get i s with
  | Some c => is_digit c
  | None => false
  end.

Definition space_at (s : string) (i : nat) : bool :=
  match get i s with
  | Some c => is_space c
  | None => false
  end.

Definition char_at (s : string) (i : nat) (c : ascii) : bool :=
  match get i s with
  | Some d => Ascii.eqb c d
  | None => false
  end.

(** The pattern [r'\b' + re.escape(w) + r'\b']. *)
Definition match_word (w : string) (before : option ascii) (s : string)
    : option nat :=
  if boundary_at before s 0 && prefix w s && boundary_at before s (String.length w)
  then Some (String.length w) else None.

(** The pattern [\b(\d{1,2}:\d{2}(?::\d{2})?)\b].  [duration_from s n] is the
    match whose leading group of digits has length [n]: the optional seconds
    are tried first, and given up when the closing [\b] fails after them. *)
Definition duration_from (before : option ascii) (s : string) (n : nat)
    : option nat :=
  if forallb (digit_at s) (seq 0 n) && char_at s n ":" &&
     digit_at s (n + 1) && digit_at s (n + 2)
  then
    if char_at s (n + 3) ":" && digit_at s (n + 4) && digit_at s (n + 5) &&
       boundary_at before s (n + 6)
    then Some (n + 6)
    else if boundary_at before s (n + 3) then Some (n + 3) else None
  else None.

Definition match_duration (before : option ascii) (s : string) : option nat :=
  if boundary_at before s 0 then
    match duration_from before s 2 with
    | Some l => Some l
    | None => duration_from before s 1
    end
  else None.

(** Number of digits of [s] from offset [i] on ([\d+] is greedy, and giving
    back a digit never helps: what follows [\d+] in the pattern below cannot
    start with a digit). *)
Fixpoint digits (s : string) : nat :=
  match s with
  | EmptyString => 0
  | String c s' => if is_digit c then S (digits s') else 0
  end.

Definition digits_from (s : string) (i : nat) : nat :=
  digits (substring i (String.length s - i) s).

(** [(?:kb|mb|gb)\b] at offset [i]. *)
Definition unit_at (before : option ascii) (s : string) (i : nat) : bool :=
  (char_at s i "k" || char_at s i "m" || char_at s i "g") &&
  char_at s (i + 1) "b" && boundary_at before s (i + 2).

(** [\s?(?:kb|mb|gb)\b] at offset [i]: end of the match. *)
Definition size_tail (before : option ascii) (s : string) (i : nat)
    : option nat :=
  if space_at s i && unit_at before s (i + 1) then Some (i + 3)
  else if unit_at before s i then Some (i + 2)
  else None.

(** The pattern [\b\d+(?:\.\d+)?\s?(?:kb|mb|gb)\b]. *)
Definition match_size (before : option ascii) (s : string) : option nat :=
  if boundary_at before s 0 then
    match digits_from s 0 with
    | O => None
    | d =>
        match (if char_at s d "." then digits_from s (d + 1) else 0) with
        | O => size_tail before s d
        | f =>
            match size_tail before s (d + 1 + f) with
            | Some l => Some l
            | None => size_tail before s d
            end
        end
    end
  else None.

(** [re.sub(r"\s+", " ", s)]; [in_run] tells that the previous character was
    a white space, already replaced. *)
Fixpoint collapse_spaces (in_run : bool) (s : string) : string :=
  match s with
  | EmptyString => EmptyString
  | String c s' =>
      if is_space c then
        if in_run then collapse_spaces true s'
        else String " " (collapse_spaces true s')
      else String c (collapse_spaces false s')
  end.

(** [s[i:]] *)
Fixpoint drop (i : nat) (s : string) : string :=
  match i, s with
  | O, _ => s
  | S _, EmptyString => EmptyString
  | S i', String _ s' => drop i' s'
  end.

(** The character before the position that follows [u], when [before]
    precedes [u]. *)
Definition last_of (before : option ascii) (u : string) : option ascii :=
  match u with
  | EmptyString => before
  | String _ _ => get (String.length u - 1) u
  end.

End Regex.

Import Regex.

(** ** [clean_text] *)

Definition skip_words : list string :=
  ["see details"; "mp4"; "pdf"; "xls"; "zip"; "mov"; "mkv"; "jpg"; "png";
   "avif"; "svg"; "tif"].

(** One turn of the loop over [skip_words]. *)
Definition remove_word (w s : string) : string :=
  sub_empty (match_word w) None s 0.

Definition clean_text (text : string) : string :=
  if negb (truthy text) then EmptyString
  else
    let text_lower := lower text in
    let text_lower := fold_left (fun t w => remove_word w t) skip_words text_lower in
    let text_lower := sub_empty match_duration None text_lower 0 in
    let text_lower := sub_empty match_size None text_lower 0 in
    strip (collapse_spaces false text_lower).

(** ** Exceptions *)

Inductive py_exn : Type :=
| AttributeError (msg : string)
| ZeroDivisionError
| CardError (msg : string).

(** [str(e)] *)
Definition exn_message (e : py_exn) : string :=
  match e with
  | AttributeError msg => msg
  | ZeroDivisionError => "division by zero"
  | CardError msg => msg
  end.

(** ** The similarity library

    [fuzz.partial_ratio], [fuzz.token_sort_ratio], [fuzz.token_set_ratio],
    [fuzz.WRatio] and [fuzz.ratio] of the [fuzzywuzzy] package.  The scorer
    calls [WRatio] under [hasattr] tests and inside a [try]: [None] stands for
    a library without that function, or for a call that raised. *)

Module fuzz.

Class Lib : Type := {
  partial_ratio : string -> string -> Z;
  token_sort_ratio : string -> string -> Z;
  token_set_ratio : string -> string -> Z;
  WRatio : string -> string -> option Z;
  ratio : string -> string -> Z
}.

(** The five scores of the documented range of the library start at 0. *)
Definition nonneg (F : Lib) : Prop :=
  forall q t : string,
    (0 <= partial_ratio q t)%Z /\ (0 <= token_sort_ratio q t)%Z /\
    (0 <= token_set_ratio q t)%Z /\ (0 <= ratio q t)%Z /\
    (forall v, WRatio q t = Some v -> (0 <= v)%Z).

End fuzz.

(** ** The scorer: [check_keyword_match] *)

Inductive method : Type :=
| ExactMatch
| AllWordsMatch
| PartialWordsMatch
| PartialRatio
| TokenSortRatio
| TokenSetRatio
| WRatioMethod
| Ratio.

(** The string that the code returns for each method. *)
Definition method_name (m : method) : string :=
  match m with
  | ExactMatch => "exact_match"
  | AllWordsMatch => "all_words_match"
  | PartialWordsMatch => "partial_words_match"
  | PartialRatio => "partial_ratio"
  | TokenSortRatio => "token_sort_ratio"
  | TokenSetRatio => "token_set_ratio"
  | WRatioMethod => "WRatio"
  | Ratio => "ratio"
  end.

(** The tuple [(is_match, best_score, method_used)]. *)
Record match_result : Type := MatchResult {
  is_match : bool;
  best_score : Q;
  method_used : option method
}.

Definition no_result : match_result := MatchResult false 0%Q None.

(** [max(a, b, c, d, e)] *)
Definition max5 (a b c d e : Z) : Z :=
  Z.max a (Z.max b (Z.max c (Z.max d e))).

(** [sum(1 for word in keyword_words if word in metadata_clean)] *)
Definition words_found (keyword_words : list string) (metadata_clean : string)
    : nat :=
  List.length (filter (fun word => contains word metadata_clean) keyword_words).

(** [(words_found / len(keyword_words)) * 100]; the caller has checked that
    there are at least two words.  The rational is compared with 70 as the
    float of the code is: the two roundings of the float are monotone and
    cannot bridge the distance of [1 / (10 * total)] at least that separates
    a smaller fraction from 0.70, for any query under [10 ^ 13] words. *)
Definition word_match_percentage (found total : nat) : Q :=
  (inject_Z (Z.of_nat found) / inject_Z (Z.of_nat total) * 100)%Q.

(** Strategy 2, the words of a keyword of several words: [Some r] when the
    function returns [r] there, [None] when it goes on to the ratios. *)
Definition word_stage (keyword_clean metadata_clean : string)
    : option match_result :=
  let keyword_words := split keyword_clean in
  if (1 <? List.length keyword_words)%nat then
    let found := words_found keyword_words metadata_clean in
    if (found =? List.length keyword_words)%nat then
      Some (MatchResult true 95%Q (Some AllWordsMatch))
    else if (0 <? found)%nat then
      let percentage := word_match_percentage found (List.length keyword_words) in
      if Qle_bool 70%Q percentage then
        Some (MatchResult true percentage (Some PartialWordsMatch))
      else None
    else None
  else None.

Section Scorer.

Context {F : fuzz.Lib}.

Local Open Scope Z_scope.

Definition wr_score (keyword_clean metadata_clean : string) : Z :=
  match fuzz.WRatio keyword_clean metadata_clean with
  | Some v => v
  | None => 0
  end.

(** Strategies 3 to 7 and the matching logic. *)
Definition ratio_stage (keyword_clean metadata_clean : string) (threshold : Z)
    : match_result :=
  let partial_score := fuzz.partial_ratio keyword_clean metadata_clean in
  let token_sort_score := fuzz.token_sort_ratio keyword_clean metadata_clean in
  let token_set_score := fuzz.token_set_ratio keyword_clean metadata_clean in
  let wr := wr_score keyword_clean metadata_clean in
  let ratio_score := fuzz.ratio keyword_clean metadata_clean in
  let best := max5 partial_score token_sort_score token_set_score wr ratio_score in
  let method :=
    if best =? partial_score then PartialRatio
    else if best =? token_sort_score then TokenSortRatio
    else if best =? token_set_score then TokenSetRatio
    else if best =? wr then WRatioMethod
    else Ratio in
  let matched :=
    if 50 <=? partial_score then true
    else if (60 <=? token_sort_score) || (60 <=? token_set_score) then true
    else if threshold <=? best then true
    else if 60 <=? wr then true
    else if 50 <=? best then true
    else false in
  MatchResult matched (inject_Z best) (Some method).

Definition check_keyword_match (keyword : option string)
    (metadata_text : string) (threshold : Z) : py_exn + match_result :=
  if negb (truthy metadata_text) then inr no_result
  else
    match keyword with
    | None => inl (AttributeError "'NoneType' object has no attribute 'lower'")
    | Some k =>
        let keyword_clean := strip (lower k) in
        let metadata_clean := clean_text metadata_text in
        if negb (truthy metadata_clean) then inr no_result
        else if contains keyword_clean metadata_clean then
          inr (MatchResult true 100%Q (Some ExactMatch))
        else
          match word_stage keyword_clean metadata_clean with
          | Some r => inr r
          | None => inr (ratio_stage keyword_clean metadata_clean threshold)
          end
    end.

End Scorer.

(** ** The aggregator: the loop of [verify_keyword_in_media_cards] *)

(** The dictionary of [extract_comprehensive_metadata]. *)
Record metadata : Type := Metadata {
  title : string;
  description : string;
  keywords : string;
  alt_text : string;
  aria_label : string;
  data_attributes : string;
  all_text : string
}.

(** What the engine reads from a result card of the page: whether it is
    visible, the outcome of the extraction of its metadata, and the text of
    its details dialog ([None] when no dialog could be opened). *)
Record card : Type := Card {
  is_visible : bool;
  extracted : py_exn + metadata;
  dialog : option string
}.

(** The entries of [mismatch_details]. *)
Inductive mismatch : Type :=
| NoMetadata (card_number : nat)
| NoMatch (card_number : nat) (display_title : string) (score : Q)
    (threshold : Z) (method : option method) (metadata_preview : string)
| ErrorReading (card_number : nat) (reason : string).

Definition card_number_of (m : mismatch) : nat :=
  match m with
  | NoMetadata n => n
  | NoMatch n _ _ _ _ _ => n
  | ErrorReading n _ => n
  end.

(** [matched], [total] and [mismatch_details]. *)
Definition tally : Type := (nat * nat * list mismatch)%type.

Definition all_metadata_fields (m : metadata) : list string :=
  [title m; description m; keywords m; alt_text m; aria_label m;
   data_attributes m; all_text m].

Definition combined_metadata (m : metadata) : string :=
  strip (join " " (filter truthy (all_metadata_fields m))).

Definition display_title_of (m : metadata) : string :=
  or_else (title m)
    (or_else (description m)
       (or_else (alt_text m) (or_else (aria_label m) "(no title)"))).

Section Aggregator.

Context {F : fuzz.Lib}.

(** The deep check of a card that did not match. *)
Definition deep_check_card (keyword : option string) (threshold : Z)
    (card_idx : nat) (c : card) (t : tally) : tally :=
  let '(matched, total, mismatch_details) := t in
  match dialog c with
  | Some inner_text =>
      let dialog_text := strip inner_text in
      if truthy dialog_text then
        match check_keyword_match keyword dialog_text threshold with
        | inr r =>
            if is_match r then
              (S matched, total,
               filter (fun m => negb (card_number_of m =? card_idx)%nat)
                 mismatch_details)
            else t
        | inl _ => t
        end
      else t
  | None => t
  end.

(** The body of the loop, for the card of number [card_idx]. *)
Definition check_card (keyword : option string) (threshold : Z)
    (deep_check : bool) (t : tally) (card_idx : nat) (c : card) : tally :=
  let '(matched, total, mismatch_details) := t in
  let total := S total in
  let failed (e : py_exn) : tally :=
    (matched, total,
     (mismatch_details ++
        [ErrorReading card_idx ("Error reading card: " ++ exn_message e)])%list)
    in
  match extracted c with
  | inl e => failed e
  | inr m =>
      let combined := combined_metadata m in
      if negb (truthy combined) then
        (matched, total, (mismatch_details ++ [NoMetadata card_idx])%list)
      else
        match check_keyword_match keyword combined threshold with
        | inl e => failed e
        | inr r =>
            let t' :=
              if is_match r then (S matched, total, mismatch_details)
              else
                (matched, total,
                 (mismatch_details ++
                    [NoMatch card_idx (display_title_of m) (best_score r)
                       threshold (method_used r) (substring 0 200 combined)])%list)
              in
            if negb (is_match r) && deep_check
            then deep_check_card keyword threshold card_idx c t'
            else t'
        end
  end.

Fixpoint check_cards (keyword : option string) (threshold : Z)
    (deep_check : bool) (t : tally) (card_idx : nat) (cards : list card)
    : tally :=
  match cards with
  | [] => t
  | c :: rest =>
      check_cards keyword threshold deep_check
        (check_card keyword threshold deep_check t card_idx c) (S card_idx) rest
  end.

(** From the cards found in the results area to the returned triple. *)
Definition verify_keyword_in_media_cards (keyword : option string)
    (cards : list card) (threshold : Z) (deep_check : bool) : tally :=
  match cards with
  | [] => (0, 0, [])%nat
  | _ =>
      let visible_cards := firstn 150 (filter is_visible cards) in
      check_cards keyword threshold deep_check (0, 0, [])%nat 1 visible_cards
  end.

End Aggregator.

(** [a / b] on integers: true division, which raises on a zero divisor. *)
Definition truediv (a b : Z) : py_exn + Q :=
  if (b =? 0)%Z then inl ZeroDivisionError
  else inr (inject_Z a / inject_Z b)%Q.

(** [(matched / total * 100) if total > 0 else 0] *)
Definition match_percentage (matched total : nat) : py_exn + Q :=
  if (0 <? total)%nat then
    match truediv (Z.of_nat matched) (Z.of_nat total) with
    | inr q => inr (q * 100)%Q
    | inl e => inl e
    end
  else inr 0%Q.

(** The figures of the final summary: [unmatched_count] and
    [match_percentage]. *)
Definition summary (t : tally) : nat * (py_exn + Q) :=
  let '(matched, total, _) := t in
  ((total - matched)%nat, match_percentage matched total).

(** ** A small similarity library

    To run the scorer on concrete inputs the class [fuzz.Lib] needs an
    instance.  The one below counts shared characters.  It is not the
    [fuzzywuzzy] package.  Like that package it gives the score 0, with every
    strategy, to two strings without a common character: the examples of a
    mismatch below are of that kind. *)

Module Sample.

Fixpoint occurs (c : ascii) (s : string) : bool :=
  match s with
  | EmptyString => false
  | String d s' => Ascii.eqb c d || occurs c s'
  end.

(** Number of characters of [q] that occur in [t]. *)
Fixpoint common (q t : string) : nat :=
  match q with
  | EmptyString => 0
  | String c q' => (if occurs c t then 1 else 0) + common q' t
  end.

Definition percent (part whole : nat) : Z :=
  Z.of_nat (100 * part / whole).

Definition coverage (q t : string) : Z :=
  percent (common q t) (String.length q).

Definition overlap (q t : string) : Z :=
  percent (common q t + common t q) (String.length q + String.length t).

#[export] Instance shared_characters : fuzz.Lib := {
  fuzz.partial_ratio := coverage;
  fuzz.token_sort_ratio := overlap;
  fuzz.token_set_ratio := overlap;
  fuzz.WRatio := fun q t => Some (Z.max (coverage q t) (overlap q t));
  fuzz.ratio := overlap
}.

End Sample.

(** ** The statements of the specification *)

Module Spec.

(** [q] is a substring of [t]. *)
Definition Substring (q t : string) : Prop :=
  exists pre post : string, t = pre ++ q ++ post.

(** The threshold brought back into the range 0 to 100. *)
Definition clamp (threshold : Z) : Z := Z.max 0 (Z.min 100 threshold).

Section Ratios.

Context {F : fuzz.Lib}.

Local Open Scope Z_scope.

(** The weighted ratio of the library; it counts as 0 when the library has
    no such function or when the call fails. *)
Definition weighted (query text : string) : Z :=
  match fuzz.WRatio query text with
  | Some score => score
  | None => 0
  end.

(** The five strategies in the order of the specification, each with its
    score. *)
Definition strategies (query text : string) : list (method * Z) :=
  [(PartialRatio, fuzz.partial_ratio query text);
   (TokenSortRatio, fuzz.token_sort_ratio query text);
   (TokenSetRatio, fuzz.token_set_ratio query text);
   (WRatioMethod, weighted query text);
   (Ratio, fuzz.ratio query text)].

(** The maximum of the scores of a list of strategies. *)
Definition maximum (l : list (method * Z)) : Z :=
  match map snd l with
  | [] => 0
  | x :: rest => fold_left Z.max rest x
  end.

Definition best (query text : string) : Z := maximum (strategies query text).

(** The first strategy, in the listed order, that reaches the maximum. *)
Definition winner (query text : string) : option method :=
  option_map fst
    (find (fun p => snd p =? best query text) (strategies query text)).

(** The rules (a) to (e) of the match decision, in their order. *)
Definition rules (query text : string) (threshold : Z) : list bool :=
  [50 <=? fuzz.partial_ratio query text;
   (60 <=? fuzz.token_sort_ratio query text)
   || (60 <=? fuzz.token_set_ratio query text);
   threshold <=? best query text;
   60 <=? weighted query text;
   50 <=? best query text].

(** The first true rule decides for a match; there is no match when no rule
    is true. *)
Definition decision (query text : string) (threshold : Z) : bool :=
  match find (fun rule => rule) (rules query text threshold) with
  | Some _ => true
  | None => false
  end.

(** The rules that do not look at the threshold: (a), (b), (d) and (e). *)
Definition independent_rule (query text : string) : bool :=
  existsb (fun rule => rule)
    [50 <=? fuzz.partial_ratio query text;
     (60 <=? fuzz.token_sort_ratio query text)
     || (60 <=? fuzz.token_set_ratio query text);
     60 <=? weighted query text;
     50 <=? best query text].

End Ratios.

(** A mismatch entry without the threshold that it echoes, and a tally
    without the thresholds of its entries. *)
Definition forget_threshold (m : mismatch) : mismatch :=
  match m with
  | NoMatch n shown score _ meth preview => NoMatch n shown score 0 meth preview
  | _ => m
  end.

Definition scoring (t : tally) : tally :=
  let '(matched, total, mismatch_details) := t in
  (matched, total, map forget_threshold mismatch_details).

(** The text has something left after its normalization. *)
Definition has_text (text : string) : bool := truthy (clean_text text).

(** The cards that have a text to look at: their metadata are read and have
    something left after normalization; with the deep check, also the cards
    with metadata and nothing left of them, whose dialog text has something
    left. *)
Definition card_has_text (deep : bool) (c : card) : bool :=
  match extracted c with
  | inl _ => false
  | inr m =>
      has_text (combined_metadata m)
      || (deep && truthy (combined_metadata m) &&
          match dialog c with
          | Some inner_text => has_text (strip inner_text)
          | None => false
          end)
  end.

(** The noise tokens, by their shape.  A string fits a pattern when it has
    one character for each class of the pattern, in order. *)
Fixpoint fits (pattern : list (ascii -> bool)) (u : string) : bool :=
  match pattern, u with
  | [], EmptyString => true
  | class :: pattern', String c u' => class c && fits pattern' u'
  | _, _ => false
  end.

Definition colon : ascii -> bool := Ascii.eqb ":".

(** A duration: [M:SS], [MM:SS], [H:MM:SS] or [HH:MM:SS]. *)
Definition is_duration (u : string) : bool :=
  existsb (fun pattern => fits pattern u)
    [[is_digit; colon; is_digit; is_digit];
     [is_digit; is_digit; colon; is_digit; is_digit];
     [is_digit; colon; is_digit; is_digit; colon; is_digit; is_digit];
     [is_digit; is_digit; colon; is_digit; is_digit; colon; is_digit;
      is_digit]].

(** What follows the leading digits of a string. *)
Fixpoint after_digits (s : string) : string :=
  match s with
  | EmptyString => EmptyString
  | String c s' => if is_digit c then after_digits s' else s
  end.

Definition starts_with_digit (s : string) : bool :=
  match s with
  | EmptyString => false
  | String c _ => is_digit c
  end.

Definition is_unit (r : string) : bool :=
  existsb (String.eqb r) ["kb"; "mb"; "gb"].

(** A unit, after one white space or none. *)
Definition is_unit_tail (r : string) : bool :=
  is_unit r ||
  match r with
  | EmptyString => false
  | String c r' => is_space c && is_unit r'
  end.

(** A size: digits, then a point and digits or nothing, then a unit after
    one white space or none. *)
Definition is_size (u : string) : bool :=
  starts_with_digit u &&
  (is_unit_tail (after_digits u) ||
   match after_digits u with
   | EmptyString => false
   | String c r =>
       Ascii.eqb c "." && starts_with_digit r && is_unit_tail (after_digits r)
   end).

(** [token_deletion token before s out]: [out] is [s] without some of its
    segments; each segment that is left out is a [token] and stands between
    two word boundaries.  [before] is the character that precedes [s]. *)
Inductive token_deletion (token : string -> bool)
    : option ascii -> string -> string -> Prop :=
| deletion_end (before : option ascii) :
    token_deletion token before EmptyString EmptyString
| deletion_keep (before : option ascii) (c : ascii) (s out : string) :
    token_deletion token (Some c) s out ->
    token_deletion token before (String c s) (String c out)
| deletion_delete (before : option ascii) (u s out : string) :
    u <> EmptyString ->
    token u = true ->
    boundary before (get 0 u) = true ->
    boundary (get (String.length u - 1) u) (get 0 s) = true ->
    token_deletion token (get (String.length u - 1) u) s out ->
    token_deletion token before (u ++ s) out.

(** One pass for each word of a list, in the order of the list. *)
Inductive word_passes : list string -> string -> string -> Prop :=
| passes_done (s : string) : word_passes [] s s
| passes_next (w : string) (words : list string) (s mid out : string) :
    token_deletion (String.eqb w) None s mid ->
    word_passes words mid out ->
    word_passes (w :: words) s out.

(** The removal of the noise tokens: the passes over the skip words, the
    pass over the durations, and the pass over the sizes. *)
Definition noise_removal (s out : string) : Prop :=
  exists after_words after_durations : string,
    word_passes skip_words s after_words
    /\ token_deletion is_duration None after_words after_durations
    /\ token_deletion is_size None after_durations out.

End Spec.

(** The scorer gets as far as the similarity ratios: the text and its
    normalization are not empty, the query is not a substring of the
    normalized text, and the words of the query decide nothing. *)
Definition ratio_stage_reached (k text : string) : bool :=
  truthy text && truthy (clean_text text) &&
  negb (contains (strip (lower k)) (clean_text text)) &&
  match word_stage (strip (lower k)) (clean_text text) with
  | None => true
  | Some _ => false
  end.

(** The match decision of the scorer; an exception is no match. *)
Definition reported_match {F : fuzz.Lib} (keyword : option string)
    (text : string) (threshold : Z) : bool :=
  match check_keyword_match keyword text threshold with
  | inr r => is_match r
  | inl _ => false
  end.

(** ** More Python operations *)

(** [s.split(sep)] for a separator of one character: a separator ends a piece
    and starts the next, so there is one piece more than separators. *)
Fixpoint split_on (sep : ascii) (s : string) : list string :=
  match s with
  | EmptyString => [EmptyString]
  | String c s' =>
      if Ascii.eqb c sep then EmptyString :: split_on sep s'
      else
        match split_on sep s' with
        | piece :: rest => String c piece :: rest
        | [] => [String c EmptyString]
        end
  end.

(** [s.count(sub)] for a non-empty [sub]: the occurrences are counted from the
    left and do not overlap; [skip] is what is left of the last one. *)
Fixpoint count_from (sub s : string) (skip : nat) : nat :=
  match s with
  | EmptyString => 0
  | String _ s' =>
      match skip with
      | S k => count_from sub s' k
      | O =>
          if prefix sub s then S (count_from sub s' (String.length sub - 1))
          else count_from sub s' 0
      end
  end.

(** [s.count(sub)]; the empty string is counted between any two characters
    and at both ends. *)
Definition count (s sub : string) : nat :=
  match sub with
  | EmptyString => S (String.length s)
  | String _ _ => count_from sub s 0
  end.

(** [s.isdigit()] on ASCII text. *)
Fixpoint all_digits (s : string) : bool :=
  match s with
  | EmptyString => true
  | String c s' => is_digit c && all_digits s'
  end.

Definition isdigit (s : string) : bool := truthy s && all_digits s.

(** ** Patterns anchored at both ends *)

Module Anchored.

(** [$] at offset [i]: the end of the string, or the line feed that ends the
    string. *)
Definition at_end (s : string) (i : nat) : bool :=
  (i =? String.length s)%nat ||
  ((S i =? String.length s)%nat && char_at s i "010").

(** [re.match(r'^\d{1,2}:\d{2}(:\d{2})?$', s)], with [n] leading digits. *)
Definition time_from (s : string) (n : nat) : bool :=
  forallb (digit_at s) (seq 0 n) && char_at s n ":" &&
  digit_at s (n + 1) && digit_at s (n + 2) &&
  ((char_at s (n + 3) ":" && digit_at s (n + 4) && digit_at s (n + 5) &&
    at_end s (n + 6))
   || at_end s (n + 3)).

Definition is_time (s : string) : bool := time_from s 2 || time_from s 1.

(** [\s?(kb|mb|gb)$] at offset [i]. *)
Definition unit_to_end (s : string) (i : nat) : bool :=
  (char_at s i "k" || char_at s i "m" || char_at s i "g") &&
  char_at s (i + 1) "b" && at_end s (i + 2).

Definition size_tail_to_end (s : string) (i : nat) : bool :=
  (space_at s i && unit_to_end s (i + 1)) || unit_to_end s i.

(** [re.match(r'^\d+(\.\d+)?\s?(kb|mb|gb)$', s)] *)
Definition is_size (s : string) : bool :=
  match digits_from s 0 with
  | O => false
  | d =>
      match (if char_at s d "." then digits_from s (d + 1) else 0) with
      | O => size_tail_to_end s d
      | f => size_tail_to_end s (d + 1 + f) || size_tail_to_end s d
      end
  end.

End Anchored.

(** ** Configuration: [env_variables.py] and [_load_config] *)

Module Config.

Section Environment.

(** [os.getenv], and [int] on strings ([None] for a [ValueError]). *)
Variable getenv : string -> option string.
Variable int_of_str : string -> option Z.

Definition _get_int (key : string) (default : option Z) : option Z :=
  match getenv key with
  | None => default
  | Some value =>
      match int_of_str value with
      | Some n => Some n
      | None => default
      end
  end.

Definition _get_bool (key : string) (default : bool) : bool :=
  match getenv key with
  | None => default
  | Some value =>
      existsb (String.eqb (lower value)) ["true"; "1"; "yes"; "on"]
  end.

Definition ELASTIC_SEARCH_FUZZY_THRESHOLD : option Z :=
  _get_int "ELASTIC_SEARCH_FUZZY_THRESHOLD" (Some 70%Z).

Definition ELASTIC_SEARCH_NOISE_WORDS : option string :=
  getenv "ELASTIC_SEARCH_NOISE_WORDS".

(** [os.getenv('ELASTIC_SEARCH_DEFAULT_KEYWORD', 'news')] *)
Definition ELASTIC_SEARCH_DEFAULT_KEYWORD : string :=
  match getenv "ELASTIC_SEARCH_DEFAULT_KEYWORD" with
  | Some value => value
  | None => "news"
  end.

(** [ELASTIC_SEARCH_FUZZY_THRESHOLD or 70]: [None] and 0 are false. *)
Definition FUZZY_THRESHOLD : Z :=
  match ELASTIC_SEARCH_FUZZY_THRESHOLD with
  | Some 0%Z | None => 70%Z
  | Some n => n
  end.

(** [ELASTIC_SEARCH_DEFAULT_KEYWORD or "news"] *)
Definition DEFAULT_KEYWORD : string :=
  or_else ELASTIC_SEARCH_DEFAULT_KEYWORD "news".

(** [_load_config]: the noise words. *)
Definition noise_words_str : string :=
  match ELASTIC_SEARCH_NOISE_WORDS with
  | Some value =>
      or_else value "other,see details,mb,mp4,jpg,png,zip,pdf,xls,mov"
  | None => "other,see details,mb,mp4,jpg,png,zip,pdf,xls,mov"
  end.

Definition NOISE_WORDS : list string :=
  map strip (split_on "," noise_words_str).

(** [main]: [args.keyword if args.keyword else None], where [args.keyword]
    is [None] when the option is not given. *)
Definition main_keyword (arg_keyword : option string) : option string :=
  match arg_keyword with
  | Some k => if truthy k then Some k else None
  | None => None
  end.

(** [run]: the keyword and the threshold of a run; [None] gives way to the
    default of the environment.  ([main] hands the threshold of the command
    line over as it is.) *)
Definition run_keyword (keyword : option string) : string :=
  match keyword with
  | Some k => k
  | None => DEFAULT_KEYWORD
  end.

Definition run_threshold (arg_threshold : option Z) : Z :=
  match arg_threshold with
  | Some t => t
  | None => FUZZY_THRESHOLD
  end.

End Environment.

End Config.

(** ** Text-based verification: [fuzzy_keyword_match] and the text searches *)

(** What the text functions read from a [UtilityFunctions] object. *)
Record utility : Type := Utility {
  utils_FUZZY_THRESHOLD : Z;
  utils_NOISE_WORDS : list string
}.

(** [_load_config] of [UtilityFunctions]. *)
Definition _load_config (getenv : string -> option string)
    (int_of_str : string -> option Z) : utility :=
  Utility (Config.FUZZY_THRESHOLD getenv int_of_str) (Config.NOISE_WORDS getenv).

Section TextSearch.

Context {F : fuzz.Lib}.

(** The test of one text in [fuzzy_keyword_match], and of one block in the
    text searches. *)
Definition text_matches (keyword_lower : string) (threshold : Z)
    (text : string) : bool :=
  let text_lower := lower text in
  contains keyword_lower text_lower ||
  (threshold <=? fuzz.partial_ratio keyword_lower text_lower)%Z.

(** [fuzzy_keyword_match] of [UtilityFunctions]; [self_threshold] is
    [self.FUZZY_THRESHOLD]. *)
Definition fuzzy_keyword_match (self_threshold : Z) (texts : list string)
    (keyword : string) (threshold : option Z) : nat * nat :=
  let threshold :=
    match threshold with
    | Some t => t
    | None => self_threshold
    end in
  let keyword_lower := lower keyword in
  (List.length (filter (text_matches keyword_lower threshold) texts),
   List.length texts).

(** [[b.strip() for b in text.split('\n') if b.strip()]] *)
Definition text_blocks (text : string) : list string :=
  filter truthy (map strip (split_on "010" text)).

(** A block that the loop over the blocks keeps. *)
Definition keep_block (noise_words : list string) (block : string) : bool :=
  let bl := lower block in
  if existsb (fun noise => contains noise bl) noise_words then false
  else if (String.length block <? 3)%nat || isdigit block then false
  else if Anchored.is_time block then false
  else if Anchored.is_size bl then false
  else true.

Definition threshold_of (utils : option utility) (threshold : option Z) : Z :=
  match threshold with
  | Some t => t
  | None =>
      match utils with
      | Some u => utils_FUZZY_THRESHOLD u
      | None => 70%Z
      end
  end.

Definition noise_words_of (utils : option utility) : list string :=
  match utils with
  | Some u => utils_NOISE_WORDS u
  | None => []
  end.

(** The count of the blocks that match, after the filter. *)
Definition fuzzy_count (utils : option utility) (keyword_lower : string)
    (threshold : Z) (text : string) : nat :=
  List.length
    (filter (text_matches keyword_lower threshold)
       (filter (keep_block (noise_words_of utils)) (text_blocks text))).

(** [perform_text_search_in_area]; [area] is the inner text of the area,
    [None] when the area is not found or not visible. *)
Definition perform_text_search_in_area (utils : option utility)
    (area : option string) (keyword : option string) (threshold : option Z)
    : nat :=
  let threshold := threshold_of utils threshold in
  match area with
  | None => 0
  | Some inner_text =>
      let area_text := strip inner_text in
      if negb (truthy area_text) || (String.length area_text <? 5)%nat then 0
      else
        let keyword_lower :=
          lower (match keyword with Some k => k | None => EmptyString end) in
        let text_lower := lower area_text in
        let exact_count := count text_lower keyword_lower in
        Nat.max exact_count (fuzzy_count utils keyword_lower threshold area_text)
  end.

(** [perform_text_based_search]; [page_text] is the inner text of the page,
    [None] when it cannot be read. *)
Definition perform_text_based_search (utils : option utility)
    (page_text : option string) (keyword : string) (threshold : option Z)
    : nat :=
  let threshold := threshold_of utils threshold in
  match page_text with
  | None => 0
  | Some page_text =>
      if negb (truthy page_text) || (String.length (strip page_text) <? 10)%nat
      then 0
      else
        let keyword_lower := lower keyword in
        let page_text_lower := lower page_text in
        let match_count := count page_text_lower keyword_lower in
        Nat.max match_count (fuzzy_count utils keyword_lower threshold page_text)
  end.

End TextSearch.

(** ** The one-time password of [get_latest_otp_after_request] *)

(** [re.search(pattern, s)] for a pattern given by its matcher, as for
    [sub_empty]: the text of the leftmost match. *)
Fixpoint search (m : option ascii -> string -> option nat)
    (before : option ascii) (s : string) : option string :=
  match m before s with
  | Some n => Some (substring 0 n s)
  | None =>
      match s with
      | EmptyString => None
      | String c s' => search m (Some c) s'
      end
  end.

(** The pattern [\b\d{6}\b]. *)
Definition match_otp (before : option ascii) (s : string) : option nat :=
  if boundary_at before s 0 && forallb (digit_at s) (seq 0 6) &&
     boundary_at before s 6
  then Some 6 else None.

(** [re.search(r"\b\d{6}\b", body)] and [otp_match.group()], for a body of
    ASCII text: there [\d] is a digit 0 to 9 and [\b] looks at ASCII letters,
    digits and the underscore only. *)
Definition find_otp (body : string) : option string :=
  search match_otp None body.

(** ** Shapes of texts and of tallies *)

Module Shape.

(** Every character of [s] passes the test [p]. *)
Fixpoint all_chars (p : ascii -> bool) (s : string) : bool :=
  match s with
  | EmptyString => true
  | String c s' => p c && all_chars p s'
  end.

Definition no_upper (s : string) : bool :=
  all_chars (fun c => negb (is_upper c)) s.

(** ASCII text: every code point is below 128. *)
Definition is_ascii (s : string) : bool :=
  all_chars (fun c => (nat_of_ascii c <? 128)%nat) s.

(** The only white space of [s] is the space, and no two spaces follow each
    other; [after_space] tells that a space precedes [s]. *)
Fixpoint single_spaced (after_space : bool) (s : string) : bool :=
  match s with
  | EmptyString => true
  | String c s' =>
      if is_space c
      then Ascii.eqb c " " && negb after_space && single_spaced true s'
      else single_spaced false s'
  end.

(** The similarity scores are within 0 and 100. *)
Definition in_range (F : fuzz.Lib) : Prop :=
  forall q t : string,
    (0 <= fuzz.partial_ratio q t <= 100)%Z /\
    (0 <= fuzz.token_sort_ratio q t <= 100)%Z /\
    (0 <= fuzz.token_set_ratio q t <= 100)%Z /\
    (0 <= fuzz.ratio q t <= 100)%Z /\
    (forall v, fuzz.WRatio q t = Some v -> (0 <= v <= 100)%Z).

(** A card whose metadata hold the query, in the sense of the exact match:
    the metadata are read, and their normalization is not empty and contains
    the query. *)
Definition holds_query (kc : string) (c : card) : Prop :=
  exists m : metadata,
    extracted c = inr m /\
    contains kc (clean_text (combined_metadata m)) = true /\
    clean_text (combined_metadata m) <> EmptyString.

Definition is_no_match (m : mismatch) : bool :=
  match m with
  | NoMatch _ _ _ _ _ _ => true
  | _ => false
  end.

(** The tally before the card of number [card_idx]: the cards before it are
    all counted, each of them is matched or has one mismatch entry, and the
    entries come with increasing card numbers. *)
Definition accounted (card_idx : nat) (t : tally) : Prop :=
  let '(matched, total, mismatch_details) := t in
  S total = card_idx
  /\ (matched + List.length mismatch_details)%nat = total
  /\ Sorted.StronglySorted lt (map card_number_of mismatch_details)
  /\ Forall (fun m => (1 <= card_number_of m < card_idx)%nat) mismatch_details.

End Shape.

(** ** The scorer and the aggregator on concrete inputs *)

Module Examples.

Import Sample.

Definition only_title (s : string) : metadata :=
  Metadata s "" "" "" "" "" "".

Definition readable (s : string) : card :=
  Card true (inr (only_title s)) None.

Definition nl : string := String "010" EmptyString.

Definition results_text : string :=
  "Breaking News" ++ nl ++ "00:30" ++ nl ++ "5.2 MB" ++ nl ++
  "news clip.mp4" ++ nl ++ "  " ++ nl ++ "12" ++ nl ++ "News at nine" ++ nl ++
  "ab".

Definition comma_at_the_end (key : string) : option string :=
  if String.eqb key "ELASTIC_SEARCH_NOISE_WORDS" then Some "mp4,pdf,"
  else None.

Example clean_text_movie :
  clean_text "The movie collection" = "the movie collection".
Proof. reflexivity. Qed.

Example clean_text_noise :
  clean_text "Clip.MP4  00:30 1:23:45 5.2 MB 100kb x12kb see details News.mov"
  = "clip. x12kb news.".
Proof. vm_compute. reflexivity. Qed.

Example clean_text_backtracking :
  clean_text "1:23:456 12:34:5 123:45 1:2 5.2.3 mb 5. mb 5 .mb 3  kb 1.5kbs"
  = ":456 :5 123:45 1:2 5. 5. mb 5 .mb 3 kb 1.5kbs"
  /\ clean_text "12:34:56:78 1:23:45kb 1.23:45 99:99mb" = ":78 : 1. 99:"
  /\ clean_text "mov-mp4_pdf pdf.zip" = "-mp4_pdf .".
Proof. vm_compute. repeat split. Qed.

Example news :
  check_keyword_match (Some "news") "Breaking News Today" 70
  = inr (MatchResult true 100%Q (Some ExactMatch)).
Proof. vm_compute. reflexivity. Qed.

Example election_results :
  check_keyword_match (Some "election results")
    "Results of the general election" 70
  = inr (MatchResult true 95%Q (Some AllWordsMatch)).
Proof. vm_compute. reflexivity. Qed.

Example three_words_of_four :
  check_keyword_match (Some "live cricket match today")
    "Cricket: the match is live" 70
  = inr (MatchResult true (word_match_percentage 3 4) (Some PartialWordsMatch)).
Proof. vm_compute. reflexivity. Qed.

Example xyzzy :
  check_keyword_match (Some "xyzzy") "Weather Update" 70
  = inr (MatchResult false 0%Q (Some PartialRatio)).
Proof. vm_compute. reflexivity. Qed.

Example no_keyword :
  check_keyword_match None "Weather Update" 70
  = inl (AttributeError "'NoneType' object has no attribute 'lower'").
Proof. reflexivity. Qed.

Example batch :
  verify_keyword_in_media_cards (Some "news")
    [readable "Breaking News Today"; readable ""; readable "qqq";
     Card false (inr (only_title "News")) None;
     Card true (inl (CardError "detached")) None] 70 false
  = (1, 4,
     [NoMetadata 2;
      NoMatch 3 "qqq" 0%Q 70%Z (Some PartialRatio) "qqq";
      ErrorReading 4 "Error reading card: detached"])%nat.
Proof. vm_compute. reflexivity. Qed.

Example times :
  map Anchored.is_time
    ["00:05"; "11:30:45"; "1:2"; "123:45"; "1:23:4"; "1:23" ++ nl;
     "1:23:45" ++ nl; "1:23" ++ nl ++ nl; "12:34:56:78"; " 1:23"; "1:23 "]
  = [true; true; false; false; false; true; true; false; false; false; false].
Proof. vm_compute. reflexivity. Qed.

Example sizes :
  map Anchored.is_size
    ["5mb"; "11.2 mb"; "5.3 gb"; "5. mb"; "5 .mb"; "5  mb"; "5" ++ nl ++ "kb";
     "5kb" ++ nl; "5kbs"; "x5kb"; ".5kb"; "5.2.3 mb"; "12"; "kb"]
  = [true; true; true; false; false; false; true; true; false; false; false;
     false; false; false].
Proof. vm_compute. reflexivity. Qed.

Example counts :
  count "aaa" "aa" = 1%nat /\ count "abcabc" "bc" = 2%nat
  /\ count "abc" "" = 4%nat /\ count "" "" = 1%nat /\ count "" "a" = 0%nat
  /\ split_on "X" "aXbXXc" = ["a"; "b"; ""; "c"]
  /\ split_on "," "" = [""] /\ split_on "," "," = [""; ""].
Proof. vm_compute. repeat split. Qed.

Example blocks_kept :
  filter (keep_block ["mp4"; "other"]) (text_blocks results_text)
  = ["Breaking News"; "News at nine"]
  /\ perform_text_search_in_area (Some (Utility 70 ["mp4"; "other"]))
       (Some results_text) (Some "news") (Some 101%Z) = 3%nat.
Proof. vm_compute. split; reflexivity. Qed.

Example otps :
  map find_otp
    ["Your OTP is 123456."; "code:1234567 then 654321"; "abc123456 x";
     "x 123456_ 111111"; "12345 1234567"; "123456"]
  = [Some "123456"; Some "654321"; None; Some "111111"; None; Some "123456"].
Proof. vm_compute. reflexivity. Qed.

End Examples.

(** ** The sample library is in range *)

Lemma shared_characters_nonneg : fuzz.nonneg Sample.shared_characters.
Proof.
  intros q t; cbn; unfold Sample.coverage, Sample.overlap, Sample.percent.
  repeat split; try lia.
  intros v Hv; injection Hv as <-; lia.
Qed.

(** ** Strings *)

Section StringFacts.

Lemma prefix_append (sub post : string) : prefix sub (sub ++ post) = true.
Proof.
  induction sub as [|c sub IH]; simpl.
  - now destruct post.
  - destruct (ascii_dec c c) as [_|E]; [exact IH | now elim E].
Qed.

Lemma prefix_split (sub s : string) :
  prefix sub s = true -> exists post, s = sub ++ post.
Proof.
  revert s; induction sub as [|c sub IH]; intros s H.
  - now exists s.
  - destruct s as [|d s]; simpl in H; [discriminate|].
    destruct (ascii_dec c d) as [->|_]; [|discriminate].
    destruct (IH s H) as [post ->]. now exists post.
Qed.

Lemma contains_Substring (sub s : string) :
  contains sub s = true <-> Spec.Substring sub s.
Proof.
  split.
  - induction s as [|c s IH]; cbn [contains]; intros H.
    + rewrite orb_false_r in H. destruct (prefix_split _ _ H) as [post E].
      now exists EmptyString, post.
    + apply orb_true_iff in H as [H|H].
      * destruct (prefix_split _ _ H) as [post E]. now exists EmptyString, post.
      * destruct (IH H) as (pre & post & ->). now exists (String c pre), post.
  - intros (pre & post & ->).
    induction pre as [|c pre IH].
    + change (EmptyString ++ sub ++ post) with (sub ++ post).
      destruct (sub ++ post) eqn:E; cbn [contains]; rewrite <- E, prefix_append;
        reflexivity.
    + cbn [append contains]. rewrite IH. apply orb_true_r.
Qed.

Lemma truthy_true (s : string) : truthy s = true <-> s <> EmptyString.
Proof. destruct s; simpl; split; congruence. Qed.

End StringFacts.

(** ** The scorer *)

(** Case analysis on every condition of the goal. *)
Ltac case_conditions :=
  repeat match goal with
         | |- context [if ?b then _ else _] => destruct b
         | |- context [match ?o with Some _ => _ | None => _ end] => destruct o
         end.

Section ScorerFacts.

Context {F : fuzz.Lib}.

(** When the words of the query decide, they decide for a match. *)
Lemma word_stage_is_match (kc mc : string) (r : match_result) :
  word_stage kc mc = Some r -> is_match r = true.
Proof.
  unfold word_stage.
  case_conditions; intros E; inversion E; reflexivity.
Qed.

(** The maximum of the five scores is one of them and bounds them all. *)
Lemma max5_cases (a b c d e : Z) :
  let m := max5 a b c d e in
  (a <= m /\ b <= m /\ c <= m /\ d <= m /\ e <= m)%Z /\
  (m = a \/ m = b \/ m = c \/ m = d \/ m = e).
Proof. unfold max5; lia. Qed.

(** The score that the code keeps for the weighted ratio is the weighted
    ratio of the library. *)
Lemma wr_score_weighted (q t : string) : wr_score q t = Spec.weighted q t.
Proof. reflexivity. Qed.

Lemma best_max5 (q t : string) :
  Spec.best q t =
  max5 (fuzz.partial_ratio q t) (fuzz.token_sort_ratio q t)
    (fuzz.token_set_ratio q t) (wr_score q t) (fuzz.ratio q t).
Proof.
  change (wr_score q t) with (Spec.weighted q t).
  unfold Spec.best, Spec.maximum, max5; simpl; lia.
Qed.

(** The ratios of the code against the words of the specification. *)
Lemma ratio_stage_spec (kc mc : string) (threshold : Z) :
  ratio_stage kc mc threshold =
  MatchResult (Spec.decision kc mc threshold) (inject_Z (Spec.best kc mc))
    (Spec.winner kc mc).
Proof.
  unfold ratio_stage, Spec.decision, Spec.winner, Spec.rules, Spec.strategies.
  change (Spec.weighted kc mc) with (wr_score kc mc).
  rewrite <- best_max5.
  pose proof (max5_cases (fuzz.partial_ratio kc mc)
                (fuzz.token_sort_ratio kc mc) (fuzz.token_set_ratio kc mc)
                (wr_score kc mc) (fuzz.ratio kc mc)) as [_ Hone].
  rewrite <- best_max5 in Hone.
  f_equal.
  - cbn [find]. case_conditions; reflexivity.
  - cbn [find snd fst option_map].
    rewrite !(Z.eqb_sym (Spec.best kc mc)).
    repeat match goal with
           | |- context [(?x =? ?y)%Z] =>
               destruct (Z.eqb_spec x y); cbn [option_map fst]
           end; try reflexivity.
    exfalso; lia.
Qed.

(** How [check_keyword_match] goes through its stages. *)
Lemma check_keyword_match_stages (k text : string) (threshold : Z) :
  check_keyword_match (Some k) text threshold =
  inr (if negb (truthy (clean_text text)) then no_result
       else if contains (strip (lower k)) (clean_text text)
       then MatchResult true 100%Q (Some ExactMatch)
       else match word_stage (strip (lower k)) (clean_text text) with
            | Some r => r
            | None => ratio_stage (strip (lower k)) (clean_text text) threshold
            end).
Proof.
  unfold check_keyword_match.
  destruct text as [|c text]; [reflexivity|].
  cbn [truthy negb].
  case_conditions; reflexivity.
Qed.

Lemma ratio_stage_reached_result (k text : string) (threshold : Z) :
  ratio_stage_reached k text = true ->
  check_keyword_match (Some k) text threshold =
  inr (ratio_stage (strip (lower k)) (clean_text text) threshold).
Proof.
  unfold ratio_stage_reached. intros H.
  rewrite check_keyword_match_stages.
  destruct (truthy text); [|discriminate].
  destruct (truthy (clean_text text)); [|discriminate].
  destruct (contains _ _); [discriminate|].
  destruct (word_stage _ _); [discriminate|]. reflexivity.
Qed.

(** C1 (as amended): when the lowercased and trimmed query is a substring of
    the normalized text, and that text is not empty, the scorer returns a
    match of score 100 by [exact_match], whatever the threshold. *)
Theorem C1_exact_substring_of_clean_text (k text : string) (threshold : Z) :
  clean_text text <> EmptyString ->
  Spec.Substring (strip (lower k)) (clean_text text) ->
  check_keyword_match (Some k) text threshold
  = inr (MatchResult true 100%Q (Some ExactMatch)).
Proof.
  intros Hclean Hsub.
  rewrite check_keyword_match_stages.
  apply truthy_true in Hclean. rewrite Hclean.
  apply contains_Substring in Hsub. rewrite Hsub. reflexivity.
Qed.

(** C2: at the ratio stage the decision is that of the first true rule of
    the chain (a) to (e), the score is the maximum of the five strategy
    scores, and the method is the first strategy, in the order partial ratio,
    token sort ratio, token set ratio, weighted ratio, plain ratio, that
    reaches this maximum. *)
Theorem C2_ratio_stage_decision (k text : string) (threshold : Z) :
  ratio_stage_reached k text = true ->
  check_keyword_match (Some k) text threshold
  = inr (MatchResult
           (Spec.decision (strip (lower k)) (clean_text text) threshold)
           (inject_Z (Spec.best (strip (lower k)) (clean_text text)))
           (Spec.winner (strip (lower k)) (clean_text text))).
Proof.
  intros H. rewrite (ratio_stage_reached_result _ _ _ H).
  now rewrite ratio_stage_spec.
Qed.

(** C8: against an empty text, or a text whose normalization is empty, the
    scorer returns no match, score 0 and no method, with any similarity
    library: no strategy has a say. *)
Theorem C8_empty_text (k text : string) (threshold : Z) :
  text = EmptyString \/ clean_text text = EmptyString ->
  check_keyword_match (Some k) text threshold = inr no_result.
Proof.
  intros H. rewrite check_keyword_match_stages.
  assert (E : clean_text text = EmptyString) by (destruct H; now subst).
  now rewrite E.
Qed.

(** C10: a result that is no match has a score below 50. *)
Theorem C10_no_match_below_50 (keyword : option string) (text : string)
    (threshold : Z) (r : match_result) :
  check_keyword_match keyword text threshold = inr r ->
  is_match r = false ->
  (best_score r < 50)%Q.
Proof.
  intros E Hno.
  destruct keyword as [k|].
  - rewrite check_keyword_match_stages in E. injection E as <-.
    destruct (negb _); [reflexivity|].
    destruct (contains _ _); [discriminate|].
    destruct (word_stage _ _) as [r|] eqn:W.
    + now rewrite (word_stage_is_match _ _ _ W) in Hno.
    + unfold ratio_stage in *. cbn [is_match best_score] in *.
      set (best := max5 _ _ _ _ _) in *.
      destruct (50 <=? fuzz.partial_ratio _ _)%Z; [discriminate|].
      destruct (_ || _); [discriminate|].
      destruct (threshold <=? best)%Z; [discriminate|].
      destruct (60 <=? wr_score _ _)%Z; [discriminate|].
      destruct (Z.leb_spec 50 best); [discriminate|].
      unfold Qlt; cbn. lia.
  - unfold check_keyword_match in E.
    destruct (negb (truthy text)); [|discriminate].
    injection E as <-. reflexivity.
Qed.

(** C7: when no rule that ignores the threshold gives the match, the match
    follows the threshold: a threshold above the best score gives no match,
    a threshold at or below it gives a match. *)
Theorem C7_threshold_decides (k text : string) (threshold : Z) :
  ratio_stage_reached k text = true ->
  Spec.independent_rule (strip (lower k)) (clean_text text) = false ->
  ((Spec.best (strip (lower k)) (clean_text text) < threshold)%Z ->
   reported_match (Some k) text threshold = false) /\
  ((threshold <= Spec.best (strip (lower k)) (clean_text text))%Z ->
   reported_match (Some k) text threshold = true).
Proof.
  intros H Hind. unfold reported_match.
  rewrite (ratio_stage_reached_result _ _ _ H), ratio_stage_spec.
  cbn [is_match]. unfold Spec.decision, Spec.rules.
  unfold Spec.independent_rule in Hind. cbn [existsb] in Hind.
  change (Spec.weighted (strip (lower k)) (clean_text text))
    with (wr_score (strip (lower k)) (clean_text text)) in *.
  repeat (apply orb_false_iff in Hind; destruct Hind as [? Hind]).
  cbn [find].
  repeat match goal with
         | E : ?b = false |- context [if ?b then _ else _] => rewrite E
         end.
  destruct (Z.leb_spec threshold (Spec.best (strip (lower k)) (clean_text text)));
    split; intros; try reflexivity; lia.
Qed.

End ScorerFacts.

(** ** Words of the query, blank queries, thresholds out of range *)

Section StripFacts.

Lemma is_space_to_lower (c : ascii) : is_space (to_lower c) = is_space c.
Proof. destruct c as [[] [] [] [] [] [] [] []]; reflexivity. Qed.

Lemma lstrip_lower (s : string) : lstrip (lower s) = lower (lstrip s).
Proof.
  induction s as [|c s IH]; [reflexivity|].
  cbn [lower lstrip]. rewrite is_space_to_lower.
  now destruct (is_space c).
Qed.

Lemma rstrip_lower (s : string) : rstrip (lower s) = lower (rstrip s).
Proof.
  induction s as [|c s IH]; [reflexivity|].
  cbn [lower rstrip]. rewrite IH, is_space_to_lower.
  destruct (rstrip s); cbn [lower]; [now destruct (is_space c)|reflexivity].
Qed.

Lemma strip_lower (s : string) : strip (lower s) = lower (strip s).
Proof. unfold strip. now rewrite lstrip_lower, rstrip_lower. Qed.

Lemma contains_empty (s : string) : contains EmptyString s = true.
Proof. destruct s; reflexivity. Qed.

Lemma words_found_all (words : list string) (mc : string) :
  words_found words mc = List.length words <->
  Forall (fun w => Spec.Substring w mc) words.
Proof.
  unfold words_found. split.
  - intros H. apply filter_length_forallb in H.
    rewrite forallb_forall in H. apply Forall_forall.
    intros w Hw. apply contains_Substring. now apply H.
  - intros H. induction H as [|w l Hw _ IH]; [reflexivity|].
    apply contains_Substring in Hw. cbn [filter]. rewrite Hw.
    cbn [List.length]. now rewrite IH.
Qed.

End StripFacts.

Section ScorerCases.

Context {F : fuzz.Lib}.

(** C3 (as amended): for a query of more than one word that is not, as a
    whole, a substring of the normalized text (itself not empty): when every
    word of the query is a substring of the normalized text the scorer
    returns a match of score 95 by [all_words_match]; otherwise, when at
    least 0.70 of the words are, it returns a match by [partial_words_match]
    whose score is the percentage of the words found. *)
Theorem C3_words_of_the_query (k text : string) (threshold : Z) :
  let kc := strip (lower k) in
  let mc := clean_text text in
  let words := split kc in
  mc <> EmptyString ->
  ~ Spec.Substring kc mc ->
  (1 < List.length words)%nat ->
  (Forall (fun w => Spec.Substring w mc) words ->
   check_keyword_match (Some k) text threshold
   = inr (MatchResult true 95%Q (Some AllWordsMatch)))
  /\
  (~ Forall (fun w => Spec.Substring w mc) words ->
   (7 # 10 <= inject_Z (Z.of_nat (words_found words mc))
              / inject_Z (Z.of_nat (List.length words)))%Q ->
   check_keyword_match (Some k) text threshold
   = inr (MatchResult true
            (word_match_percentage (words_found words mc) (List.length words))
            (Some PartialWordsMatch))).
Proof.
  intros kc mc words Hmc Hsub Hlen.
  rewrite check_keyword_match_stages. fold kc mc.
  apply truthy_true in Hmc. rewrite Hmc. cbn [negb].
  destruct (contains kc mc) eqn:Hc;
    [now apply contains_Substring in Hc|].
  unfold word_stage. fold words.
  apply Nat.ltb_lt in Hlen. rewrite Hlen.
  split.
  - intros Hall. apply words_found_all in Hall.
    apply Nat.eqb_eq in Hall. now rewrite Hall.
  - intros Hnot Hfrac.
    destruct (Nat.eqb_spec (words_found words mc) (List.length words)) as [E|_];
      [now apply words_found_all in E|].
    destruct (words_found words mc) as [|n] eqn:Hn.
    + exfalso. revert Hfrac. unfold Qle, Qdiv, Qmult. cbn. lia.
    + cbn [Nat.ltb Nat.leb].
      assert (Hle : Qle_bool 70
                      (word_match_percentage (S n) (List.length words)) = true).
      { apply Qle_bool_iff. unfold word_match_percentage. lra. }
      now rewrite Hle.
Qed.

Lemma blank_query_result (k text : string) (threshold : Z) :
  strip k = EmptyString ->
  check_keyword_match (Some k) text threshold
  = inr (if Spec.has_text text
         then MatchResult true 100%Q (Some ExactMatch)
         else no_result).
Proof.
  intros Hk. rewrite check_keyword_match_stages, strip_lower, Hk.
  cbn [lower]. rewrite contains_empty. unfold Spec.has_text.
  now destruct (truthy (clean_text text)).
Qed.

Lemma has_text_truthy (text : string) :
  Spec.has_text text = true -> truthy text = true.
Proof. now destruct text. Qed.

(** What a card adds to the matched cards when the query is blank. *)
Lemma check_card_blank_query (k : string) (threshold : Z) (deep : bool)
    (card_idx : nat) (c : card) (matched total : nat) (l : list mismatch) :
  strip k = EmptyString ->
  exists l' : list mismatch,
    check_card (Some k) threshold deep (matched, total, l) card_idx c
    = ((if Spec.card_has_text deep c then S matched else matched), S total, l').
Proof.
  intros Hk. unfold check_card, Spec.card_has_text.
  destruct (extracted c) as [e|m]; [eexists; reflexivity|].
  destruct (truthy (combined_metadata m)) eqn:Ht; cbn [negb].
  - rewrite (blank_query_result _ _ _ Hk).
    destruct (Spec.has_text (combined_metadata m)); cbn [is_match negb andb orb];
      [eexists; reflexivity|].
    destruct deep; cbn [andb]; [|eexists; reflexivity].
    unfold deep_check_card.
    destruct (dialog c) as [inner|]; [|eexists; reflexivity].
    rewrite (blank_query_result _ _ _ Hk).
    destruct (Spec.has_text (strip inner)) eqn:Hd.
    + rewrite (has_text_truthy _ Hd). cbn [is_match]. eexists; reflexivity.
    + destruct (truthy (strip inner)); cbn [is_match]; eexists; reflexivity.
  - assert (Hn : Spec.has_text (combined_metadata m) = false).
    { destruct (Spec.has_text (combined_metadata m)) eqn:E; [|reflexivity].
      apply has_text_truthy in E. congruence. }
    rewrite Hn, andb_false_r. cbn [orb andb]. eexists; reflexivity.
Qed.

Lemma check_cards_blank_query (k : string) (threshold : Z) (deep : bool)
    (cards : list card) :
  strip k = EmptyString ->
  forall (card_idx matched total : nat) (l : list mismatch),
  exists l' : list mismatch,
    check_cards (Some k) threshold deep (matched, total, l) card_idx cards
    = ((matched + List.length (filter (Spec.card_has_text deep) cards))%nat,
       (total + List.length cards)%nat, l').
Proof.
  intros Hk. induction cards as [|c rest IH]; intros card_idx matched total l.
  - exists l. cbn. now rewrite !Nat.add_0_r.
  - cbn [check_cards List.length filter].
    destruct (check_card_blank_query k threshold deep card_idx c matched total
                l Hk) as (l1 & ->).
    destruct (Spec.card_has_text deep c).
    + destruct (IH (S card_idx) (S matched) (S total) l1) as (l2 & ->).
      exists l2. cbn [List.length]. f_equal; f_equal; lia.
    + destruct (IH (S card_idx) matched (S total) l1) as (l2 & ->).
      exists l2. f_equal; f_equal; lia.
Qed.

(** C4 (as amended): a query that is empty or made of white space raises no
    error.  The scorer returns a match of score 100 by [exact_match] for
    every text that has something left after normalization, and no match for
    the others; so the aggregator counts as matched exactly the checked cards
    that have such a text. *)
Theorem C4_blank_query_is_accepted (k : string) :
  strip k = EmptyString ->
  (forall (text : string) (threshold : Z),
      check_keyword_match (Some k) text threshold
      = inr (if truthy (clean_text text)
             then MatchResult true 100%Q (Some ExactMatch)
             else no_result))
  /\
  (forall (cards : list card) (threshold : Z) (deep : bool),
      fst (fst (verify_keyword_in_media_cards (Some k) cards threshold deep))
      = List.length
          (filter (Spec.card_has_text deep)
             (firstn 150 (filter is_visible cards)))).
Proof.
  intros Hk. split.
  - intros text threshold. exact (blank_query_result k text threshold Hk).
  - intros cards threshold deep. unfold verify_keyword_in_media_cards.
    destruct cards as [|c cards]; [reflexivity|].
    destruct (check_cards_blank_query k threshold deep
                (firstn 150 (filter is_visible (c :: cards))) Hk 1 0 0 [])%nat
      as (l & ->).
    reflexivity.
Qed.

(** With scores that are not negative, the result of the ratios is that of
    the threshold brought back into the range 0 to 100. *)
Lemma ratio_stage_clamp (kc mc : string) (threshold : Z) :
  fuzz.nonneg F ->
  ratio_stage kc mc threshold = ratio_stage kc mc (Spec.clamp threshold).
Proof.
  intros Hpos. unfold ratio_stage.
  destruct (Hpos kc mc) as (Hp & _).
  pose proof (max5_cases (fuzz.partial_ratio kc mc)
                (fuzz.token_sort_ratio kc mc) (fuzz.token_set_ratio kc mc)
                (wr_score kc mc) (fuzz.ratio kc mc)) as [(Hb & _) _].
  set (best := max5 _ _ _ _ _) in *. cbv zeta in Hb.
  f_equal.
  destruct (50 <=? fuzz.partial_ratio kc mc)%Z; [reflexivity|].
  destruct (_ || _); [reflexivity|].
  unfold Spec.clamp.
  destruct (Z.leb_spec threshold best),
    (Z.leb_spec (Z.max 0 (Z.min 100 threshold)) best),
    (60 <=? wr_score kc mc)%Z, (Z.leb_spec 50 best);
    try reflexivity; lia.
Qed.

Lemma check_keyword_match_clamp (keyword : option string) (text : string)
    (threshold : Z) :
  fuzz.nonneg F ->
  check_keyword_match keyword text threshold
  = check_keyword_match keyword text (Spec.clamp threshold).
Proof.
  intros Hpos. destruct keyword as [k|]; [|reflexivity].
  rewrite !check_keyword_match_stages.
  now rewrite (ratio_stage_clamp _ _ threshold Hpos).
Qed.

Lemma forget_threshold_number (m : mismatch) :
  card_number_of (Spec.forget_threshold m) = card_number_of m.
Proof. now destruct m. Qed.

Lemma forget_threshold_filter (n : nat) (l : list mismatch) :
  map Spec.forget_threshold
    (filter (fun m => negb (card_number_of m =? n)%nat) l)
  = filter (fun m => negb (card_number_of m =? n)%nat)
      (map Spec.forget_threshold l).
Proof.
  rewrite filter_map_swap. f_equal. apply filter_ext.
  intros m. now rewrite forget_threshold_number.
Qed.

Lemma deep_check_card_clamp (keyword : option string) (threshold : Z)
    (n : nat) (c : card) (t1 t2 : tally) :
  fuzz.nonneg F ->
  Spec.scoring t1 = Spec.scoring t2 ->
  Spec.scoring (deep_check_card keyword threshold n c t1)
  = Spec.scoring (deep_check_card keyword (Spec.clamp threshold) n c t2).
Proof.
  intros Hpos H. unfold deep_check_card.
  destruct t1 as [[m1 n1] l1], t2 as [[m2 n2] l2].
  destruct (dialog c) as [inner|]; [|exact H].
  destruct (truthy (strip inner)); [|exact H].
  rewrite <- (check_keyword_match_clamp _ _ _ Hpos).
  destruct (check_keyword_match keyword (strip inner) threshold) as [e|r];
    [exact H|].
  destruct (is_match r); [|exact H].
  cbn [Spec.scoring] in *. injection H as -> -> Hl.
  now rewrite !forget_threshold_filter, Hl.
Qed.

Lemma check_card_clamp (keyword : option string) (threshold : Z)
    (deep : bool) (n : nat) (c : card) (t1 t2 : tally) :
  fuzz.nonneg F ->
  Spec.scoring t1 = Spec.scoring t2 ->
  Spec.scoring (check_card keyword threshold deep t1 n c)
  = Spec.scoring (check_card keyword (Spec.clamp threshold) deep t2 n c).
Proof.
  intros Hpos H. unfold check_card.
  destruct t1 as [[m1 n1] l1], t2 as [[m2 n2] l2].
  assert (H' := H). cbn [Spec.scoring] in H'. injection H' as -> -> Hl.
  destruct (extracted c) as [e|m].
  { cbn [Spec.scoring]. now rewrite !map_app, Hl. }
  destruct (negb (truthy (combined_metadata m))).
  { cbn [Spec.scoring]. now rewrite !map_app, Hl. }
  rewrite <- (check_keyword_match_clamp _ _ _ Hpos).
  destruct (check_keyword_match keyword (combined_metadata m) threshold)
    as [e|r].
  { cbn [Spec.scoring]. now rewrite !map_app, Hl. }
  destruct (is_match r); cbn [negb andb].
  - cbn [Spec.scoring]. now rewrite Hl.
  - destruct deep.
    + apply deep_check_card_clamp; [exact Hpos|].
      cbn [Spec.scoring]. now rewrite !map_app, Hl.
    + cbn [Spec.scoring]. now rewrite !map_app, Hl.
Qed.

Lemma check_cards_clamp (keyword : option string) (threshold : Z)
    (deep : bool) (cards : list card) :
  fuzz.nonneg F ->
  forall (n : nat) (t1 t2 : tally),
    Spec.scoring t1 = Spec.scoring t2 ->
    Spec.scoring (check_cards keyword threshold deep t1 n cards)
    = Spec.scoring (check_cards keyword (Spec.clamp threshold) deep t2 n cards).
Proof.
  intros Hpos. induction cards as [|c rest IH]; intros n t1 t2 H.
  - exact H.
  - cbn [check_cards]. apply IH. now apply check_card_clamp.
Qed.

(** C5 (as amended): the engine does not bring the threshold back into the
    range 0 to 100, and does not fail: the threshold is used as it is given.
    With strategy scores that are not negative, the result of the scorer is
    the one of the clamped threshold, and so are the counts and the entries
    of the aggregator, up to the threshold that the entries echo. *)
Theorem C5_scoring_as_if_clamped :
  fuzz.nonneg F ->
  (forall (keyword : option string) (text : string) (threshold : Z),
      check_keyword_match keyword text threshold
      = check_keyword_match keyword text (Spec.clamp threshold))
  /\
  (forall (keyword : option string) (cards : list card) (threshold : Z)
          (deep : bool),
      Spec.scoring (verify_keyword_in_media_cards keyword cards threshold deep)
      = Spec.scoring
          (verify_keyword_in_media_cards keyword cards (Spec.clamp threshold)
             deep)).
Proof.
  intros Hpos. split.
  - intros. now apply check_keyword_match_clamp.
  - intros keyword cards threshold deep.
    unfold verify_keyword_in_media_cards.
    destruct cards as [|c cards]; [reflexivity|].
    now apply check_cards_clamp.
Qed.

End ScorerCases.

(** ** Removal of the noise words *)

Section NoiseWords.

Lemma last_of_cons (before : option ascii) (c : ascii) (u : string) :
  last_of (Some c) u = last_of before (String c u).
Proof.
  destruct u as [|d u]; [reflexivity|].
  unfold last_of.
  replace (String.length (String c (String d u)) - 1)%nat
    with (S (String.length (String d u) - 1)) by (cbn; lia).
  reflexivity.
Qed.

(** Deleting the rest of a match leads to the text that follows it. *)
Lemma sub_empty_skip (m : option ascii -> string -> option nat)
    (u rest : string) :
  forall before : option ascii,
    sub_empty m before (u ++ rest) (String.length u)
    = sub_empty m (last_of before u) rest 0.
Proof.
  induction u as [|c u IH]; intros before; [reflexivity|].
  cbn [append String.length sub_empty].
  now rewrite IH, (last_of_cons before).
Qed.

Lemma length_append (u rest : string) :
  String.length (u ++ rest) = (String.length u + String.length rest)%nat.
Proof. induction u as [|c u IH]; cbn; [reflexivity | now rewrite IH]. Qed.

End NoiseWords.

(** ** Segments of a text *)

Section Substrings.

Lemma get_drop (i : nat) :
  forall (s : string) (j : nat), get j (drop i s) = get (i + j) s.
Proof.
  induction i as [|i IH]; intros [|c s] j; cbn [drop Nat.add get]; auto.
Qed.

Lemma substring_drop (i k : nat) :
  forall s : string, substring i k s = substring 0 k (drop i s).
Proof.
  induction i as [|i IH]; intros [|c s]; cbn [drop substring]; auto.
  now destruct k.
Qed.

Lemma length_drop (i : nat) :
  forall s : string, String.length (drop i s) = (String.length s - i)%nat.
Proof.
  induction i as [|i IH]; intros [|c s]; cbn [drop String.length Nat.sub];
    auto.
Qed.

Lemma substring_full (s : string) : substring 0 (String.length s) s = s.
Proof. induction s as [|c s IH]; cbn; congruence. Qed.

Lemma digits_from_drop (s : string) (i : nat) :
  digits_from s i = digits (drop i s).
Proof.
  unfold digits_from.
  now rewrite substring_drop, <- length_drop, substring_full.
Qed.

Lemma length_substring (n : nat) :
  forall s : string,
    (n <= String.length s)%nat -> String.length (substring 0 n s) = n.
Proof.
  induction n as [|n IH]; intros [|c s] H; cbn in *; try lia; auto.
  f_equal. apply IH. lia.
Qed.

Lemma get_substring (n : nat) :
  forall (s : string) (i : nat),
    (i < n)%nat -> get i (substring 0 n s) = get i s.
Proof.
  induction n as [|n IH]; intros s i H; [lia|].
  destruct s as [|c s]; [reflexivity|].
  cbn [substring]. destruct i as [|i]; [reflexivity|].
  cbn [get]. apply IH. lia.
Qed.

Lemma get_Some_lt (i : nat) :
  forall (s : string) (c : ascii),
    get i s = Some c -> (i < String.length s)%nat.
Proof.
  induction i as [|i IH]; intros [|d s] c H; cbn in *; try discriminate;
    [lia|].
  apply IH in H. lia.
Qed.

Lemma split_at (n : nat) (s : string) :
  s = substring 0 n s ++ drop n s.
Proof.
  revert s. induction n as [|n IH]; intros [|c s]; cbn; try reflexivity.
  f_equal. apply IH.
Qed.

Lemma substring_append (u r : string) :
  substring 0 (String.length u) (u ++ r) = u.
Proof.
  induction u as [|c u IH]; cbn; [now destruct r | now rewrite IH].
Qed.

End Substrings.

(** ** Removal of the noise tokens *)

Section Deletion.

Variable m : option ascii -> string -> option nat.
Variable token : string -> bool.

(** A match of the pattern is a token, within the text, between two word
    boundaries. *)
Hypothesis m_sound :
  forall (before : option ascii) (s : string) (n : nat),
    m before s = Some (S n) ->
    (S n <= String.length s)%nat
    /\ token (substring 0 (S n) s) = true
    /\ boundary_at before s 0 = true
    /\ boundary_at before s (S n) = true.

(** A substitution pass deletes nothing but tokens between two word
    boundaries. *)
Lemma sub_empty_deletion (n : nat) :
  forall (s : string) (before : option ascii),
    (String.length s <= n)%nat ->
    Spec.token_deletion token before s (sub_empty m before s 0).
Proof.
  induction n as [|n IH]; intros s before Hn.
  - destruct s; [constructor | cbn in Hn; lia].
  - destruct s as [|c s]; [constructor|].
    cbn [sub_empty].
    destruct (m before (String c s)) as [[|k]|] eqn:M;
      try (apply Spec.deletion_keep, IH; cbn in Hn; lia).
    destruct (m_sound _ _ _ M) as (Hlen & Htok & B0 & B1).
    pose proof (split_at (S k) (String c s)) as E.
    pose proof (length_substring (S k) (String c s) Hlen) as Hu.
    set (u := substring 0 (S k) (String c s)) in *.
    set (rest := drop (S k) (String c s)) in *.
    assert (Eu : u = String c (substring 0 k s)) by reflexivity.
    assert (Es : s = substring 0 k s ++ rest).
    { rewrite Eu in E. cbn [append] in E. now injection E. }
    assert (Hk : String.length (substring 0 k s) = k).
    { rewrite Eu in Hu. cbn in Hu. lia. }
    rewrite Es at 2. rewrite <- Hk at 2.
    rewrite sub_empty_skip, (last_of_cons before), <- Eu.
    assert (Hlast : last_of before u = get (String.length u - 1) u)
      by (rewrite Eu; reflexivity).
    rewrite Hlast, E.
    apply Spec.deletion_delete.
    + rewrite Eu. discriminate.
    + exact Htok.
    + rewrite Eu. exact B0.
    + unfold boundary_at in B1.
      replace (String.length u - 1)%nat with k by lia.
      unfold u. rewrite get_substring by lia.
      unfold rest. rewrite get_drop, Nat.add_0_r. exact B1.
    + apply IH. rewrite E, length_append in Hn. rewrite Hu in Hn. lia.
Qed.

End Deletion.

Section Matchers.

Lemma match_word_sound (w : string) (before : option ascii) (s : string)
    (n : nat) :
  match_word w before s = Some (S n) ->
  (S n <= String.length s)%nat
  /\ String.eqb w (substring 0 (S n) s) = true
  /\ boundary_at before s 0 = true
  /\ boundary_at before s (S n) = true.
Proof.
  unfold match_word.
  destruct (boundary_at before s 0) eqn:B0; [|discriminate].
  destruct (prefix w s) eqn:P; [|discriminate].
  destruct (boundary_at before s (String.length w)) eqn:B1; [|discriminate].
  cbn [andb]. intros E. injection E as E.
  destruct (prefix_split _ _ P) as [rest ->].
  rewrite <- E. rewrite substring_append, String.eqb_refl, length_append.
  repeat split; try assumption. lia.
Qed.

Lemma remove_words_passes (words : list string) :
  forall s : string,
    Spec.word_passes words s
      (fold_left (fun t w => remove_word w t) words s).
Proof.
  induction words as [|w words IH]; intros s; [constructor|].
  cbn [fold_left]. econstructor; [|apply IH].
  unfold remove_word.
  apply (sub_empty_deletion (match_word w) (String.eqb w)
           (match_word_sound w) (String.length s)).
  reflexivity.
Qed.

Lemma digit_at_get (s : string) (i : nat) :
  digit_at s i = true -> exists c, get i s = Some c /\ is_digit c = true.
Proof. unfold digit_at. destruct (get i s) as [c|]; [eauto | discriminate]. Qed.

Lemma char_at_get (s : string) (i : nat) (x : ascii) :
  char_at s i x = true -> get i s = Some x.
Proof.
  unfold char_at. destruct (get i s) as [c|]; [|discriminate].
  intros H. apply Ascii.eqb_eq in H. now subst.
Qed.

Lemma fits_prefix (pattern : list (ascii -> bool)) :
  forall s : string,
    (forall i class, nth_error pattern i = Some class ->
                     exists c, get i s = Some c /\ class c = true) ->
    (List.length pattern <= String.length s)%nat
    /\ Spec.fits pattern (substring 0 (List.length pattern) s) = true.
Proof.
  induction pattern as [|class pattern IH]; intros s H.
  - split; [cbn; lia | now destruct s].
  - destruct (H 0%nat class eq_refl) as (c & Hc & Hclass).
    destruct s as [|d s]; [cbn in Hc; discriminate|].
    cbn in Hc. injection Hc as ->.
    destruct (IH s) as [Hlen Hfits].
    { intros i cl Hi. exact (H (S i) cl Hi). }
    split; [cbn; lia|]. cbn [List.length substring Spec.fits].
    now rewrite Hclass, Hfits.
Qed.

Ltac pattern_facts :=
  let i := fresh "i" in
  let class := fresh "class" in
  let Hi := fresh "Hi" in
  intros i class Hi;
  repeat (destruct i as [|i];
          [cbn in Hi; injection Hi as <-;
           first [now apply digit_at_get
                 | eexists; split; [apply char_at_get; eassumption
                                   | reflexivity]]|]);
  cbn in Hi; destruct i; cbn in Hi; discriminate Hi.

Lemma duration_from_sound (before : option ascii) (s : string) (n0 n : nat) :
  n0 = 1%nat \/ n0 = 2%nat ->
  duration_from before s n0 = Some n ->
  (0 < n <= String.length s)%nat
  /\ Spec.is_duration (substring 0 n s) = true
  /\ boundary_at before s n = true.
Proof.
  intros Hn0. unfold duration_from.
  destruct (forallb (digit_at s) (seq 0 n0) && char_at s n0 ":" &&
            digit_at s (n0 + 1) && digit_at s (n0 + 2)) eqn:C1; [|discriminate].
  apply andb_true_iff in C1 as [C1 D3]. apply andb_true_iff in C1 as [C1 D2].
  apply andb_true_iff in C1 as [D1 Cc].
  destruct (char_at s (n0 + 3) ":" && digit_at s (n0 + 4) &&
            digit_at s (n0 + 5) && boundary_at before s (n0 + 6)) eqn:C2.
  - apply andb_true_iff in C2 as [C2 B]. apply andb_true_iff in C2 as [C2 D5].
    apply andb_true_iff in C2 as [Cc2 D4].
    intros E; injection E as <-.
    destruct Hn0 as [-> | ->]; cbn [forallb seq Nat.add] in *;
      repeat (apply andb_true_iff in D1 as [? D1]).
    + destruct (fits_prefix
                  [is_digit; Spec.colon; is_digit; is_digit; Spec.colon;
                   is_digit; is_digit] s) as [Hlen Hfits];
        [pattern_facts|].
      cbn [List.length] in Hlen, Hfits.
      split; [lia|]. split; [|exact B].
      unfold Spec.is_duration. cbn [existsb]. rewrite Hfits.
      now rewrite !orb_true_r.
    + destruct (fits_prefix
                  [is_digit; is_digit; Spec.colon; is_digit; is_digit;
                   Spec.colon; is_digit; is_digit] s) as [Hlen Hfits];
        [pattern_facts|].
      cbn [List.length] in Hlen, Hfits.
      split; [lia|]. split; [|exact B].
      unfold Spec.is_duration. cbn [existsb]. rewrite Hfits.
      now rewrite !orb_true_r.
  - destruct (boundary_at before s (n0 + 3)) eqn:B; [|discriminate].
    intros E; injection E as <-.
    destruct Hn0 as [-> | ->]; cbn [forallb seq Nat.add] in *;
      repeat (apply andb_true_iff in D1 as [? D1]).
    + destruct (fits_prefix [is_digit; Spec.colon; is_digit; is_digit] s)
        as [Hlen Hfits]; [pattern_facts|].
      cbn [List.length] in Hlen, Hfits.
      split; [lia|]. split; [|exact B].
      unfold Spec.is_duration. cbn [existsb]. now rewrite Hfits.
    + destruct (fits_prefix
                  [is_digit; is_digit; Spec.colon; is_digit; is_digit] s)
        as [Hlen Hfits]; [pattern_facts|].
      cbn [List.length] in Hlen, Hfits.
      split; [lia|]. split; [|exact B].
      unfold Spec.is_duration. cbn [existsb]. rewrite Hfits.
      now rewrite !orb_true_r.
Qed.

Lemma match_duration_sound (before : option ascii) (s : string) (n : nat) :
  match_duration before s = Some (S n) ->
  (S n <= String.length s)%nat
  /\ Spec.is_duration (substring 0 (S n) s) = true
  /\ boundary_at before s 0 = true
  /\ boundary_at before s (S n) = true.
Proof.
  unfold match_duration.
  destruct (boundary_at before s 0) eqn:B0; [|discriminate].
  intros H.
  assert (Hfrom : exists n0, (n0 = 1%nat \/ n0 = 2%nat)
                             /\ duration_from before s n0 = Some (S n)).
  { destruct (duration_from before s 2) eqn:E2.
    - exists 2%nat. split; [now right | congruence].
    - exists 1%nat. split; [now left | exact H]. }
  destruct Hfrom as (n0 & Hn0 & Hd).
  destruct (duration_from_sound before s n0 (S n) Hn0 Hd) as (Hl & Hs & B).
  repeat split; try assumption. lia.
Qed.

Lemma drop_empty (i : nat) : drop i EmptyString = EmptyString.
Proof. now destruct i. Qed.

Lemma drop_drop (a : nat) :
  forall (s : string) (b : nat), drop b (drop a s) = drop (a + b) s.
Proof.
  induction a as [|a IH]; intros [|c s] b; cbn [drop Nat.add];
    auto using drop_empty.
Qed.

Lemma after_digits_substring :
  forall (s : string) (n : nat),
    (digits s <= n)%nat ->
    Spec.after_digits (substring 0 n s)
    = substring 0 (n - digits s) (drop (digits s) s).
Proof.
  induction s as [|c s IH]; intros n H.
  - now destruct n.
  - cbn [digits] in *. destruct (is_digit c) eqn:D.
    + destruct n as [|n]; [lia|].
      cbn [substring Spec.after_digits drop Nat.sub]. rewrite D.
      apply IH. lia.
    + cbn [drop]. rewrite Nat.sub_0_r. destruct n as [|n]; [reflexivity|].
      cbn [substring Spec.after_digits]. now rewrite D.
Qed.

Lemma starts_with_digit_substring (s : string) (n d : nat) :
  digits s = S d -> Spec.starts_with_digit (substring 0 (S n) s) = true.
Proof.
  destruct s as [|c s]; cbn [digits substring Spec.starts_with_digit];
    [discriminate|].
  now destruct (is_digit c).
Qed.

Lemma get_two (s : string) (x y : ascii) :
  get 0 s = Some x -> get 1 s = Some y ->
  substring 0 2 s = String x (String y EmptyString).
Proof.
  destruct s as [|a [|b s]]; cbn [get]; try discriminate.
  intros [= ->] [= ->]. now destruct s.
Qed.

Lemma unit_at_sound (before : option ascii) (s : string) (i : nat) :
  unit_at before s i = true ->
  (i + 2 <= String.length s)%nat
  /\ Spec.is_unit (substring 0 2 (drop i s)) = true
  /\ boundary_at before s (i + 2) = true.
Proof.
  unfold unit_at. intros H.
  apply andb_true_iff in H as [H B]. apply andb_true_iff in H as [U Hb].
  apply char_at_get in Hb.
  split; [apply get_Some_lt in Hb; lia|]. split; [|exact B].
  assert (E : exists x, get i s = Some x
                        /\ Spec.is_unit (String x "b") = true).
  { apply orb_true_iff in U as [U|U]; [apply orb_true_iff in U as [U|U]|];
      apply char_at_get in U; eexists; (split; [exact U | reflexivity]). }
  destruct E as (x & Hx & Hu).
  rewrite (get_two (drop i s) x "b"); [exact Hu| |].
  - now rewrite get_drop, Nat.add_0_r.
  - now rewrite get_drop.
Qed.

Lemma size_tail_sound (before : option ascii) (s : string) (i n : nat) :
  size_tail before s i = Some n ->
  (i < n <= String.length s)%nat
  /\ Spec.is_unit_tail (substring 0 (n - i) (drop i s)) = true
  /\ boundary_at before s n = true.
Proof.
  unfold size_tail.
  destruct (space_at s i && unit_at before s (i + 1)) eqn:A.
  - intros [= <-]. apply andb_true_iff in A as [Sp U].
    destruct (unit_at_sound _ _ _ U) as (Hl & Hu & B).
    replace (i + 1 + 2)%nat with (i + 3)%nat in * by lia.
    split; [lia|]. split; [|exact B].
    replace (i + 3 - i)%nat with 3%nat by lia.
    pose proof (get_drop i s 0) as G. rewrite Nat.add_0_r in G.
    unfold space_at in Sp. rewrite <- G in Sp.
    rewrite <- drop_drop in Hu.
    destruct (drop i s) as [|c r]; [discriminate|].
    cbn [get] in Sp. cbn [drop] in Hu.
    unfold Spec.is_unit_tail. cbn [substring]. rewrite Sp, Hu.
    apply orb_true_r.
  - destruct (unit_at before s i) eqn:U; [|discriminate].
    intros [= <-]. destruct (unit_at_sound _ _ _ U) as (Hl & Hu & B).
    split; [lia|]. split; [|exact B].
    replace (i + 2 - i)%nat with 2%nat by lia.
    unfold Spec.is_unit_tail. now rewrite Hu.
Qed.

Lemma match_size_sound (before : option ascii) (s : string) (n : nat) :
  match_size before s = Some (S n) ->
  (S n <= String.length s)%nat
  /\ Spec.is_size (substring 0 (S n) s) = true
  /\ boundary_at before s 0 = true
  /\ boundary_at before s (S n) = true.
Proof.
  unfold match_size.
  destruct (boundary_at before s 0) eqn:B0; [|discriminate].
  rewrite digits_from_drop. cbn [drop].
  destruct (digits s) as [|d] eqn:D; [discriminate|].
  intros H.
  assert (Plain : size_tail before s (S d) = Some (S n) ->
                  (S n <= String.length s)%nat
                  /\ Spec.is_size (substring 0 (S n) s) = true
                  /\ true = true
                  /\ boundary_at before s (S n) = true).
  { intros T. destruct (size_tail_sound _ _ _ _ T) as (Hl & Hu & B).
    split; [lia|]. split; [|split; [reflexivity | assumption]].
    unfold Spec.is_size. rewrite (starts_with_digit_substring s n d D).
    rewrite after_digits_substring by lia. rewrite D, Hu. reflexivity. }
  destruct (char_at s (S d) ".") eqn:P; [|exact (Plain H)].
  rewrite digits_from_drop in H.
  destruct (digits (drop (S d + 1) s)) as [|f] eqn:F; [exact (Plain H)|].
  destruct (size_tail before s (S d + 1 + S f)) as [l|] eqn:T;
    [|exact (Plain H)].
  injection H as ->.
  destruct (size_tail_sound _ _ _ _ T) as (Hl & Hu & B).
  split; [lia|]. split; [|split; [reflexivity | assumption]].
  unfold Spec.is_size. rewrite (starts_with_digit_substring s n d D).
  rewrite after_digits_substring by lia. rewrite D.
  apply char_at_get in P.
  assert (E : drop (S d) s = String "." (drop (S d + 1) s)).
  { rewrite <- drop_drop. pose proof (get_drop (S d) s 0) as G.
    rewrite Nat.add_0_r, P in G.
    destruct (drop (S d) s) as [|c r]; [discriminate|].
    cbn [get] in G. injection G as ->. reflexivity. }
  rewrite E. clear E.
  set (s' := drop (S d + 1) s) in *.
  replace (S n - S d)%nat with (S (S (n - S d - 1))) by lia.
  cbn [substring]. rewrite Ascii.eqb_refl.
  rewrite (starts_with_digit_substring s' _ f F).
  rewrite after_digits_substring by lia. rewrite F.
  unfold s'. rewrite drop_drop.
  replace (S (n - S d - 1) - S f)%nat with (S n - (S d + 1 + S f))%nat
    by lia.
  rewrite Hu. cbn [andb]. apply orb_true_r.
Qed.

End Matchers.

(** C6 (amended).  For every ASCII text, the normalization lower-cases the
    text, removes noise tokens, collapses white space and strips; the
    removal deletes nothing but whole tokens that stand between two word
    boundaries: in one pass for each skip word, the occurrences of that
    word; then the durations; then the file sizes.  A noise word inside a
    longer word stays: with query [mov] and text [The movie collection],
    the [mov] inside [movie] is preserved. *)
Theorem C6_noise_tokens_whole_word_only :
  (forall text : string,
      Shape.is_ascii text = true ->
      exists t : string,
        Spec.noise_removal (lower text) t
        /\ clean_text text = strip (collapse_spaces false t))
  /\ clean_text "The movie collection" = "the movie collection"
  /\ contains "mov" (clean_text "The movie collection") = true.
Proof.
  split; [|split; reflexivity].
  intros text _.
  exists (if truthy text
          then sub_empty match_size None
                 (sub_empty match_duration None
                    (fold_left (fun t w => remove_word w t) skip_words
                       (lower text)) 0) 0
          else EmptyString).
  unfold clean_text.
  destruct text as [|c text]; cbn [truthy negb].
  - split; [|reflexivity].
    exists EmptyString, EmptyString. cbn [lower].
    split; [|split; constructor].
    repeat (econstructor; [apply Spec.deletion_end|]). constructor.
  - split; [|reflexivity].
    eexists. eexists. split; [apply remove_words_passes|].
    split.
    + apply (sub_empty_deletion match_duration Spec.is_duration
               match_duration_sound _ _ None (Nat.le_refl _)).
    + apply (sub_empty_deletion match_size Spec.is_size
               match_size_sound _ _ None (Nat.le_refl _)).
Qed.

(** ** The summary *)

(** C9: for every batch the match percentage is the number of matched cards
    divided by the number of checked cards, times 100, and 0 when no card was
    checked; the division is never by zero. *)
Theorem C9_match_percentage {F : fuzz.Lib} (keyword : option string)
    (cards : list card) (threshold : Z) (deep : bool) :
  let t := verify_keyword_in_media_cards keyword cards threshold deep in
  let matched := fst (fst t) in
  let total := snd (fst t) in
  snd (summary t)
  = inr (if (total =? 0)%nat then 0%Q
         else (inject_Z (Z.of_nat matched) / inject_Z (Z.of_nat total) * 100)%Q).
Proof.
  cbv zeta.
  destruct (verify_keyword_in_media_cards keyword cards threshold deep)
    as [[matched total] details].
  cbn [summary fst snd]. unfold match_percentage, truediv.
  destruct total as [|n]; reflexivity.
Qed.

(** ** The theorems on concrete inputs *)

Section Concrete.

Import Sample Examples.

Lemma C1_witness :
  check_keyword_match (Some "News") "Breaking News Today.mp4" 70
  = inr (MatchResult true 100%Q (Some ExactMatch)).
Proof.
  apply C1_exact_substring_of_clean_text.
  - vm_compute; discriminate.
  - apply contains_Substring. vm_compute. reflexivity.
Defined.

(** The query "mp4" is a substring of the text "mp4", and of "clip.mp4", but
    the normalization deletes it there: the first text is left empty, and the
    scorer returns no match. *)
Lemma C1_noise_query_is_cleaned_away :
  Spec.Substring "mp4" "mp4"
  /\ check_keyword_match (Some "mp4") "mp4" 70 = inr no_result
  /\ Spec.Substring "mp4" "clip.mp4"
  /\ contains "mp4" (clean_text "clip.mp4") = false.
Proof.
  repeat split; try (apply contains_Substring); vm_compute; reflexivity.
Qed.

Lemma C2_witness :
  check_keyword_match (Some "xyzzy") "Weather Update" 70
  = inr (MatchResult
           (Spec.decision "xyzzy" "weather update" 70)
           (inject_Z (Spec.best "xyzzy" "weather update"))
           (Spec.winner "xyzzy" "weather update")).
Proof.
  apply (C2_ratio_stage_decision "xyzzy" "Weather Update" 70).
  vm_compute. reflexivity.
Defined.

Lemma C3_witness :
  check_keyword_match (Some "live cricket match today")
    "Cricket: the match is live" 70
  = inr (MatchResult true (word_match_percentage 3 4) (Some PartialWordsMatch)).
Proof.
  refine (proj2 (C3_words_of_the_query "live cricket match today"
                   "Cricket: the match is live" 70 _ _ _) _ _).
  - vm_compute; discriminate.
  - intros H. apply contains_Substring in H. vm_compute in H. discriminate.
  - vm_compute. lia.
  - intros H. apply words_found_all in H. vm_compute in H. discriminate.
  - vm_compute. discriminate.
Defined.

(** Both words of the query "election results" are in the text, but so is
    the whole query: the scorer returns score 100 by [exact_match], not
    score 95 by [all_words_match]. *)
Lemma C3_whole_query_comes_first :
  split "election results" = ["election"; "results"]
  /\ forallb (fun word => contains word "election results 2024")
       (split "election results") = true
  /\ check_keyword_match (Some "election results") "election results 2024" 70
     = inr (MatchResult true 100%Q (Some ExactMatch)).
Proof. vm_compute. repeat split. Qed.

Lemma C4_witness :
  check_keyword_match (Some "   ") "Weather Update" 70
  = inr (MatchResult true 100%Q (Some ExactMatch))
  /\ fst (fst (verify_keyword_in_media_cards (Some "   ")
                 [readable "00:30 5 MB"; readable "Weather"] 70 false))
     = 1%nat.
Proof.
  split.
  - exact (proj1 (C4_blank_query_is_accepted "   " eq_refl) "Weather Update"
             70%Z).
  - exact (proj2 (C4_blank_query_is_accepted "   " eq_refl)
             [readable "00:30 5 MB"; readable "Weather"] 70%Z false).
Defined.

(** The empty query and a query of three spaces raise nothing: they match
    every text that has something left after normalization. *)
Lemma C4_blank_query_matches :
  strip "   " = EmptyString
  /\ check_keyword_match (Some "") "Weather Update" 70
     = inr (MatchResult true 100%Q (Some ExactMatch))
  /\ check_keyword_match (Some "   ") "Weather Update" 70
     = inr (MatchResult true 100%Q (Some ExactMatch))
  /\ verify_keyword_in_media_cards (Some "")
       [readable "Weather Update"; readable "Breaking News"] 70 false
     = (2, 2, [])%nat.
Proof. vm_compute. repeat split. Qed.

Lemma C5_witness :
  check_keyword_match (Some "xyzzy") "Weather Update" 150
  = check_keyword_match (Some "xyzzy") "Weather Update" (Spec.clamp 150)
  /\ Spec.scoring
       (verify_keyword_in_media_cards (Some "xyzzy")
          [readable "Weather Update"] (-5) false)
     = Spec.scoring
         (verify_keyword_in_media_cards (Some "xyzzy")
            [readable "Weather Update"] (Spec.clamp (-5)) false).
Proof.
  split.
  - exact (proj1 (C5_scoring_as_if_clamped shared_characters_nonneg) _ _ _).
  - exact (proj2 (C5_scoring_as_if_clamped shared_characters_nonneg) _ _ _ _).
Defined.

(** With the threshold 150 the mismatch entry of the report echoes 150, not
    the threshold 100 of the clamped call. *)
Lemma C5_threshold_is_not_clamped :
  Spec.clamp 150 = 100%Z
  /\ verify_keyword_in_media_cards (Some "xyzzy") [readable "Weather Update"]
       150 false
     = (0, 1,
        [NoMatch 1 "Weather Update" 0%Q 150%Z (Some PartialRatio)
           "Weather Update"])%nat
  /\ verify_keyword_in_media_cards (Some "xyzzy") [readable "Weather Update"]
       (Spec.clamp 150) false
     = (0, 1,
        [NoMatch 1 "Weather Update" 0%Q 100%Z (Some PartialRatio)
           "Weather Update"])%nat.
Proof. vm_compute. repeat split. Qed.

(** The query "mov" stands as a word of its own in the text: the
    normalization deletes it, and the query is no longer in the text. *)
Lemma C6_witness :
  Shape.is_ascii "Clip.MP4 00:30 5.2 MB" = true
  /\ exists t : string,
       Spec.noise_removal (lower "Clip.MP4 00:30 5.2 MB") t
       /\ clean_text "Clip.MP4 00:30 5.2 MB" = strip (collapse_spaces false t).
Proof.
  split; [reflexivity|].
  apply (proj1 C6_noise_tokens_whole_word_only "Clip.MP4 00:30 5.2 MB").
  reflexivity.
Defined.

Lemma C6_query_that_is_a_noise_word :
  contains "mov" (lower "My MOV file") = true
  /\ clean_text "My MOV file" = "my file"
  /\ contains "mov" (clean_text "My MOV file") = false.
Proof. vm_compute. repeat split. Qed.

Lemma C7_witness :
  Spec.best "abcd" "axyz wvu" = 25%Z
  /\ reported_match (Some "abcd") "axyz wvu" 30 = false
  /\ reported_match (Some "abcd") "axyz wvu" 20 = true.
Proof.
  split; [vm_compute; reflexivity|]. split.
  - refine (proj1 (C7_threshold_decides "abcd" "axyz wvu" 30 _ _) _);
      vm_compute; reflexivity.
  - refine (proj2 (C7_threshold_decides "abcd" "axyz wvu" 20 _ _) _);
      [vm_compute; reflexivity | vm_compute; reflexivity
      | vm_compute; discriminate].
Defined.

Lemma C8_witness :
  clean_text "00:30 MP4" = EmptyString
  /\ check_keyword_match (Some "news") "00:30 MP4" 70 = inr no_result.
Proof.
  split; [vm_compute; reflexivity|].
  apply C8_empty_text. right. vm_compute. reflexivity.
Defined.

Lemma C10_witness :
  check_keyword_match (Some "xyzzy") "Weather Update" 70
  = inr (MatchResult false 0%Q (Some PartialRatio))
  /\ (best_score (MatchResult false 0%Q (Some PartialRatio)) < 50)%Q.
Proof.
  split; [vm_compute; reflexivity|].
  apply (C10_no_match_below_50 (Some "xyzzy") "Weather Update" 70).
  - vm_compute. reflexivity.
  - reflexivity.
Defined.

End Concrete.

(** ** The shape of a normalized text *)

Section CleanTextShape.

Import Shape.

Lemma to_lower_not_upper (c : ascii) : is_upper (to_lower c) = false.
Proof. destruct c as [[] [] [] [] [] [] [] []]; reflexivity. Qed.

Lemma to_lower_fixed (c : ascii) : is_upper c = false -> to_lower c = c.
Proof. unfold to_lower. now intros ->. Qed.

Lemma lower_no_upper (s : string) : no_upper (lower s) = true.
Proof.
  unfold no_upper. induction s as [|c s IH]; [reflexivity|].
  cbn [lower all_chars]. now rewrite to_lower_not_upper, IH.
Qed.

Lemma lower_fixed (s : string) : no_upper s = true -> lower s = s.
Proof.
  unfold no_upper. induction s as [|c s IH]; [reflexivity|].
  cbn [lower all_chars]. intros H. apply andb_true_iff in H as [Hc Hs].
  apply negb_true_iff in Hc. now rewrite (to_lower_fixed _ Hc), IH.
Qed.

Lemma lower_idempotent (s : string) : lower (lower s) = lower s.
Proof. apply lower_fixed, lower_no_upper. Qed.

Variable p : ascii -> bool.

Lemma all_chars_sub_empty (m : option ascii -> string -> option nat)
    (s : string) :
  all_chars p s = true ->
  forall (before : option ascii) (skip : nat),
    all_chars p (sub_empty m before s skip) = true.
Proof.
  induction s as [|c s IH]; intros H before skip; [reflexivity|].
  cbn in H. apply andb_true_iff in H as [Hc Hs].
  cbn [sub_empty]. destruct skip as [|k]; [|now apply IH].
  destruct (m before (String c s)) as [[|k]|]; cbn [all_chars];
    rewrite ?Hc; now apply IH.
Qed.

Lemma all_chars_collapse (s : string) :
  p " " = true -> all_chars p s = true ->
  forall in_run : bool, all_chars p (collapse_spaces in_run s) = true.
Proof.
  intros Hsp. induction s as [|c s IH]; intros H in_run; [reflexivity|].
  cbn in H. apply andb_true_iff in H as [Hc Hs].
  cbn [collapse_spaces].
  destruct (is_space c), in_run; cbn [all_chars]; rewrite ?Hsp, ?Hc;
    now apply IH.
Qed.

Lemma all_chars_lstrip (s : string) :
  all_chars p s = true -> all_chars p (lstrip s) = true.
Proof.
  induction s as [|c s IH]; intros H; [reflexivity|].
  cbn [lstrip]. destruct (is_space c); [|exact H].
  cbn in H. apply andb_true_iff in H as [_ Hs]. now apply IH.
Qed.

Lemma all_chars_rstrip (s : string) :
  all_chars p s = true -> all_chars p (rstrip s) = true.
Proof.
  induction s as [|c s IH]; intros H; [reflexivity|].
  cbn in H. apply andb_true_iff in H as [Hc Hs].
  cbn [rstrip]. specialize (IH Hs).
  destruct (rstrip s); [destruct (is_space c)|]; cbn [all_chars] in *;
    rewrite ?Hc; auto.
Qed.

Lemma all_chars_strip (s : string) :
  all_chars p s = true -> all_chars p (strip s) = true.
Proof. intros H. now apply all_chars_rstrip, all_chars_lstrip. Qed.

End CleanTextShape.

Section CleanTextSpaces.

Import Shape.

Lemma single_spaced_weaken (s : string) (b : bool) :
  single_spaced b s = true -> single_spaced false s = true.
Proof.
  destruct s as [|c s]; [reflexivity|]. cbn.
  destruct (is_space c); [|auto]. now destruct b, (Ascii.eqb c " ").
Qed.

Lemma single_spaced_collapse (s : string) :
  forall b : bool, single_spaced b (collapse_spaces b s) = true.
Proof.
  induction s as [|c s IH]; intros b; [reflexivity|].
  cbn [collapse_spaces]. destruct (is_space c) eqn:Hc.
  - destruct b; [apply IH|]. cbn. now rewrite IH.
  - cbn [single_spaced]. rewrite Hc. apply IH.
Qed.

Lemma single_spaced_lstrip (s : string) :
  forall b : bool,
    single_spaced b s = true -> single_spaced false (lstrip s) = true.
Proof.
  induction s as [|c s IH]; intros b H; [reflexivity|].
  cbn [lstrip]. destruct (is_space c) eqn:Hc.
  - cbn in H. rewrite Hc in H.
    apply andb_true_iff in H as [_ H]. now apply (IH true).
  - now apply (single_spaced_weaken _ b).
Qed.

Lemma single_spaced_rstrip (s : string) :
  forall b : bool,
    single_spaced b s = true -> single_spaced b (rstrip s) = true.
Proof.
  induction s as [|c s IH]; intros b H; [reflexivity|].
  cbn [rstrip]. cbn in H.
  destruct (is_space c) eqn:Hc.
  - apply andb_true_iff in H as [H1 H2]. specialize (IH true H2).
    destruct (rstrip s); [reflexivity|].
    cbn [single_spaced]. rewrite Hc, H1. exact IH.
  - specialize (IH false H).
    destruct (rstrip s); cbn [single_spaced]; rewrite Hc; auto.
Qed.

(** The white space at both ends is gone after [strip]. *)
Lemma lstrip_head (s : string) :
  match lstrip s with
  | EmptyString => True
  | String c _ => is_space c = false
  end.
Proof.
  induction s as [|c s IH]; [exact I|].
  cbn [lstrip]. destruct (is_space c) eqn:Hc; [exact IH | exact Hc].
Qed.

Lemma rstrip_head (c : ascii) (s : string) :
  is_space c = false -> exists r, rstrip (String c s) = String c r.
Proof.
  intros Hc. cbn [rstrip]. rewrite Hc.
  destruct (rstrip s) as [|d r]; eauto.
Qed.

Lemma rstrip_idempotent (s : string) : rstrip (rstrip s) = rstrip s.
Proof.
  induction s as [|c s IH]; [reflexivity|].
  cbn [rstrip]. destruct (rstrip s) as [|d r] eqn:E.
  - destruct (is_space c) eqn:Hc; [reflexivity|]. cbn. now rewrite Hc.
  - cbn [rstrip] in *. now rewrite IH.
Qed.

Lemma strip_idempotent (s : string) : strip (strip s) = strip s.
Proof.
  unfold strip. pose proof (lstrip_head s) as H.
  destruct (lstrip s) as [|c r] eqn:E; [reflexivity|].
  destruct (rstrip_head c r H) as [r' Er]. rewrite Er.
  cbn [lstrip]. rewrite H, <- Er. apply rstrip_idempotent.
Qed.

End CleanTextSpaces.

Section CleanTextLength.

Lemma length_lower (s : string) : String.length (lower s) = String.length s.
Proof. induction s as [|c s IH]; cbn; congruence. Qed.

Lemma length_sub_empty (m : option ascii -> string -> option nat)
    (s : string) :
  forall (before : option ascii) (skip : nat),
    (String.length (sub_empty m before s skip) <= String.length s)%nat.
Proof.
  induction s as [|c s IH]; intros before skip; [reflexivity|].
  cbn [sub_empty String.length]. destruct skip as [|k].
  - destruct (m before (String c s)) as [[|k]|]; cbn [String.length];
      first [apply le_n_S, IH | apply Nat.le_le_succ_r, IH].
  - apply Nat.le_le_succ_r, IH.
Qed.

Lemma length_remove_words (words : list string) :
  forall s : string,
    (String.length (fold_left (fun t w => remove_word w t) words s)
     <= String.length s)%nat.
Proof.
  induction words as [|w words IH]; intros s; [reflexivity|].
  cbn [fold_left]. etransitivity; [apply IH|]. apply length_sub_empty.
Qed.

Lemma length_collapse (s : string) :
  forall b : bool,
    (String.length (collapse_spaces b s) <= String.length s)%nat.
Proof.
  induction s as [|c s IH]; intros b; [reflexivity|].
  cbn [collapse_spaces String.length].
  destruct (is_space c), b; cbn [String.length];
    first [apply le_n_S, IH | apply Nat.le_le_succ_r, IH].
Qed.

Lemma length_lstrip (s : string) :
  (String.length (lstrip s) <= String.length s)%nat.
Proof.
  induction s as [|c s IH]; [reflexivity|].
  cbn [lstrip]. destruct (is_space c); cbn [String.length]; lia.
Qed.

Lemma length_rstrip (s : string) :
  (String.length (rstrip s) <= String.length s)%nat.
Proof.
  induction s as [|c s IH]; [reflexivity|].
  cbn [rstrip]. destruct (rstrip s); [destruct (is_space c)|];
    cbn [String.length] in *; lia.
Qed.

Lemma length_strip (s : string) :
  (String.length (strip s) <= String.length s)%nat.
Proof.
  unfold strip. etransitivity; [apply length_rstrip | apply length_lstrip].
Qed.

End CleanTextLength.

(** X1: the normalized text has no capital letter, no white space at its
    ends, and no white space inside but single spaces. *)
Theorem X1_clean_text_shape (text : string) :
  Shape.no_upper (clean_text text) = true
  /\ strip (clean_text text) = clean_text text
  /\ Shape.single_spaced false (clean_text text) = true.
Proof.
  unfold clean_text. destruct (negb (truthy text)); [now repeat split|].
  split; [|split].
  - apply all_chars_strip, all_chars_collapse; [reflexivity|].
    do 2 apply all_chars_sub_empty.
    generalize (lower_no_upper text). generalize (lower text).
    induction skip_words as [|w words IH]; intros s Hs; [exact Hs|].
    cbn [fold_left]. apply IH. now apply all_chars_sub_empty.
  - apply strip_idempotent.
  - unfold strip. apply single_spaced_rstrip.
    apply (single_spaced_lstrip _ false), single_spaced_collapse.
Qed.

(** X2: the normalization never makes an ASCII text longer. *)
Theorem X2_clean_text_length (text : string) :
  Shape.is_ascii text = true ->
  (String.length (clean_text text) <= String.length text)%nat.
Proof.
  intros _. unfold clean_text. destruct (negb (truthy text)); [cbn; lia|].
  etransitivity; [apply length_strip|].
  etransitivity; [apply length_collapse|].
  etransitivity; [apply length_sub_empty|].
  etransitivity; [apply length_sub_empty|].
  etransitivity; [apply length_remove_words|].
  now rewrite length_lower.
Qed.

(** ** More on the scorer *)

Section PercentageFacts.

Lemma percentage_as_fraction (found total : nat) :
  (0 < total)%nat ->
  (word_match_percentage found total
   == (100 * Z.of_nat found) # Pos.of_nat total)%Q.
Proof.
  intros Ht. unfold word_match_percentage.
  destruct total as [|n]; [lia|].
  unfold Qeq, Qdiv, Qmult, Qinv, inject_Z. cbn [Qnum Qden].
  rewrite <- Pos.of_nat_succ.
  destruct (Z.of_nat (S n)) eqn:E; try lia.
  cbn in E. injection E as <-. cbn [Qnum Qden]. lia.
Qed.

Lemma percentage_le (q : Z) (found total : nat) :
  (0 < total)%nat ->
  (inject_Z q <= word_match_percentage found total)%Q <->
  (q * Z.of_nat total <= 100 * Z.of_nat found)%Z.
Proof.
  intros Ht. rewrite (percentage_as_fraction _ _ Ht).
  unfold Qle, inject_Z. cbn [Qnum Qden].
  rewrite Z.mul_1_r.
  replace (Z.pos (Pos.of_nat total)) with (Z.of_nat total);
    [reflexivity|].
  destruct total as [|n]; [lia|].
  now rewrite <- Pos.of_nat_succ, Zpos_P_of_succ_nat, Nat2Z.inj_succ.
Qed.

Lemma percentage_lt (q : Z) (found total : nat) :
  (0 < total)%nat ->
  (word_match_percentage found total < inject_Z q)%Q <->
  (100 * Z.of_nat found < q * Z.of_nat total)%Z.
Proof.
  intros Ht. rewrite (percentage_as_fraction _ _ Ht).
  unfold Qlt, inject_Z. cbn [Qnum Qden].
  rewrite Z.mul_1_r.
  replace (Z.pos (Pos.of_nat total)) with (Z.of_nat total);
    [reflexivity|].
  destruct total as [|n]; [lia|].
  now rewrite <- Pos.of_nat_succ, Zpos_P_of_succ_nat, Nat2Z.inj_succ.
Qed.

Lemma words_found_le (words : list string) (mc : string) :
  (words_found words mc <= List.length words)%nat.
Proof. apply filter_length_le. Qed.

(** What the word stage returns, when it returns. *)
Lemma word_stage_cases (kc mc : string) (r : match_result) :
  word_stage kc mc = Some r ->
  r = MatchResult true 95%Q (Some AllWordsMatch)
  \/ (r = MatchResult true
            (word_match_percentage (words_found (split kc) mc)
               (List.length (split kc)))
            (Some PartialWordsMatch)
      /\ (4 <= List.length (split kc))%nat
      /\ (words_found (split kc) mc < List.length (split kc))%nat
      /\ (70 * Z.of_nat (List.length (split kc))
          <= 100 * Z.of_nat (words_found (split kc) mc))%Z).
Proof.
  unfold word_stage.
  pose proof (words_found_le (split kc) mc) as Hle.
  destruct (Nat.ltb_spec 1 (List.length (split kc))) as [Hlen|]; [|discriminate].
  destruct (Nat.eqb_spec (words_found (split kc) mc) (List.length (split kc)))
    as [|Hne]; [intros E; injection E as <-; now left|].
  destruct (0 <? _)%nat; [|discriminate].
  destruct (Qle_bool 70 _) eqn:Hq; [|discriminate].
  intros E; injection E as <-. right.
  apply Qle_bool_iff in Hq.
  apply (percentage_le 70) in Hq; [|lia].
  repeat split; lia.
Qed.

End PercentageFacts.

Section SampleRange.

Lemma common_le (q t : string) : (Sample.common q t <= String.length q)%nat.
Proof.
  induction q as [|c q IH]; [reflexivity|].
  cbn [Sample.common String.length]. destruct (Sample.occurs c t); lia.
Qed.

Lemma percent_range (part whole : nat) :
  (part <= whole)%nat -> (0 <= Sample.percent part whole <= 100)%Z.
Proof.
  intros H. unfold Sample.percent. split; [lia|].
  destruct whole as [|n]; [now cbn|].
  assert (100 * part / S n <= 100)%nat; [|lia].
  apply Nat.Div0.div_le_upper_bound. lia.
Qed.

Lemma shared_characters_in_range : Shape.in_range Sample.shared_characters.
Proof.
  intros q t. cbn.
  pose proof (percent_range _ _ (common_le q t)) as Hc.
  assert (Ho : (0 <= Sample.overlap q t <= 100)%Z).
  { apply percent_range. pose proof (common_le q t). pose proof (common_le t q).
    lia. }
  unfold Sample.coverage in *.
  split; [exact Hc|]. split; [exact Ho|]. split; [exact Ho|].
  split; [exact Ho|].
  intros v Hv. injection Hv as <-. lia.
Qed.

End SampleRange.

Section ScorerMore.

Context {F : fuzz.Lib}.

Lemma clean_text_lower (text : string) :
  clean_text (lower text) = clean_text text.
Proof.
  unfold clean_text. rewrite lower_idempotent. now destruct text.
Qed.

Lemma strip_lower_canonical (k : string) :
  strip (lower (strip (lower k))) = strip (lower k).
Proof.
  now rewrite (strip_lower (strip (lower k))), strip_idempotent,
    <- strip_lower, lower_idempotent.
Qed.

(** X3: the scorer ignores the case of the keyword and of the text, and
    the white space around the keyword. *)
Theorem X3_scorer_ignores_case_and_margins (k text : string) (threshold : Z) :
  check_keyword_match (Some k) text threshold
  = check_keyword_match (Some (strip (lower k))) (lower text) threshold.
Proof.
  rewrite !check_keyword_match_stages.
  now rewrite clean_text_lower, strip_lower_canonical.
Qed.

Lemma ratio_stage_above_50 (kc mc : string) (threshold : Z) :
  (50 <= threshold)%Z ->
  ratio_stage kc mc threshold = ratio_stage kc mc 50.
Proof.
  intros H. unfold ratio_stage. f_equal.
  set (best := max5 _ _ _ _ _).
  destruct (50 <=? fuzz.partial_ratio kc mc)%Z; [reflexivity|].
  destruct (_ || _); [reflexivity|].
  destruct (Z.leb_spec threshold best), (Z.leb_spec 50 best),
    (60 <=? wr_score kc mc)%Z; try reflexivity; lia.
Qed.

(** X4: every threshold of 50 or more gives the result of the threshold
    50: the last rule of the matching logic accepts a best score of 50
    whatever the threshold. *)
Theorem X4_thresholds_from_50_agree (keyword : option string) (text : string)
    (threshold : Z) :
  (50 <= threshold)%Z ->
  check_keyword_match keyword text threshold
  = check_keyword_match keyword text 50.
Proof.
  intros H. destruct keyword as [k|]; [|reflexivity].
  rewrite !check_keyword_match_stages.
  now rewrite (ratio_stage_above_50 _ _ _ H).
Qed.

(** X5: the threshold has no part in the score and in the method of a
    result, and a match at a threshold is a match at every lower one. *)
Theorem X5_threshold_only_decides (keyword : option string) (text : string)
    (low high : Z) (r_low r_high : match_result) :
  (low <= high)%Z ->
  check_keyword_match keyword text low = inr r_low ->
  check_keyword_match keyword text high = inr r_high ->
  best_score r_low = best_score r_high
  /\ method_used r_low = method_used r_high
  /\ (is_match r_high = true -> is_match r_low = true).
Proof.
  intros Hle Hlow Hhigh.
  destruct keyword as [k|].
  - rewrite check_keyword_match_stages in Hlow, Hhigh.
    injection Hlow as <-. injection Hhigh as <-.
    destruct (negb _); [now repeat split|].
    destruct (contains _ _); [now repeat split|].
    destruct (word_stage _ _); [now repeat split|].
    unfold ratio_stage. cbn [best_score method_used is_match].
    split; [reflexivity|]. split; [reflexivity|].
    set (best := max5 _ _ _ _ _).
    set (wr := wr_score _ _).
    destruct (50 <=? fuzz.partial_ratio _ _)%Z; [reflexivity|].
    destruct (_ || _); [reflexivity|].
    destruct (Z.leb_spec high best), (Z.leb_spec low best),
      (60 <=? wr)%Z, (50 <=? best)%Z;
      try reflexivity; try discriminate; lia.
  - unfold check_keyword_match in Hlow, Hhigh.
    destruct (negb (truthy text)); [|discriminate].
    injection Hlow as <-. injection Hhigh as <-. now repeat split.
Qed.

Lemma wr_score_range (q t : string) :
  Shape.in_range F -> (0 <= wr_score q t <= 100)%Z.
Proof.
  intros H. destruct (H q t) as (_ & _ & _ & _ & Hw).
  unfold wr_score. destruct (fuzz.WRatio q t) as [v|]; [now apply Hw | lia].
Qed.

(** X6: with similarity scores within 0 and 100, the score of every result
    is within 0 and 100. *)
Theorem X6_score_range (keyword : option string) (text : string)
    (threshold : Z) (r : match_result) :
  Shape.in_range F ->
  check_keyword_match keyword text threshold = inr r ->
  (0 <= best_score r <= 100)%Q.
Proof.
  intros HF E.
  assert (Hconst : forall z : Z, (0 <= z <= 100)%Z ->
                                 (0 <= inject_Z z <= 100)%Q).
  { intros z Hz. unfold Qle. cbn. lia. }
  destruct keyword as [k|].
  - rewrite check_keyword_match_stages in E. injection E as <-.
    destruct (negb _); [now apply (Hconst 0%Z)|].
    destruct (contains _ _); [now apply (Hconst 100%Z)|].
    destruct (word_stage _ _) as [r|] eqn:W.
    + apply word_stage_cases in W as [->|(-> & Hlen & Hlt & Hfrac)];
        [now apply (Hconst 95%Z)|].
      cbn [best_score]. split.
      * apply (percentage_le 0); lia.
      * apply Qlt_le_weak, (percentage_lt 100); lia.
    + unfold ratio_stage. cbn [best_score]. apply Hconst.
      destruct (HF (strip (lower k)) (clean_text text)) as (? & ? & ? & ? & _).
      pose proof (wr_score_range (strip (lower k)) (clean_text text) HF).
      unfold max5. lia.
  - unfold check_keyword_match in E.
    destruct (negb (truthy text)); [|discriminate].
    injection E as <-. now apply (Hconst 0%Z).
Qed.

(** X7: a result by [partial_words_match] is a match whose score is at
    least 70 and below 100, and it needs a keyword of four words or more. *)
Theorem X7_partial_words_need_four (k text : string) (threshold : Z)
    (r : match_result) :
  check_keyword_match (Some k) text threshold = inr r ->
  method_used r = Some PartialWordsMatch ->
  is_match r = true
  /\ (4 <= List.length (split (strip (lower k))))%nat
  /\ (70 <= best_score r)%Q /\ (best_score r < 100)%Q.
Proof.
  intros E Hm.
  rewrite check_keyword_match_stages in E. injection E as <-.
  destruct (negb _); [discriminate|].
  destruct (contains _ _); [discriminate|].
  destruct (word_stage _ _) as [r|] eqn:W.
  - apply word_stage_cases in W as [->|(-> & Hlen & Hlt & Hfrac)];
      [discriminate|].
    cbn [is_match best_score]. repeat split; try assumption.
    + apply (percentage_le 70); lia.
    + apply (percentage_lt 100); lia.
  - exfalso. revert Hm. unfold ratio_stage. cbn [method_used].
    case_conditions; discriminate.
Qed.

End ScorerMore.

(** ** The tally of the aggregator *)

Section TallyFacts.

Context {F : fuzz.Lib}.

Import Shape.

Lemma increasing_snoc (l : list nat) (n : nat) :
  StronglySorted lt l -> Forall (fun x => (x < n)%nat) l ->
  StronglySorted lt (l ++ [n]).
Proof.
  induction 1 as [|x l Hs IH Hx]; intros Hall; cbn.
  - repeat constructor.
  - inversion Hall as [|? ? Hxn Hl]; subst.
    constructor; [now apply IH|].
    apply Forall_app. split; [exact Hx | now repeat constructor].
Qed.

Lemma accounted_mismatch (card_idx matched total : nat) (l : list mismatch)
    (entry : mismatch) :
  card_number_of entry = card_idx ->
  accounted card_idx (matched, total, l) ->
  accounted (S card_idx) (matched, S total, (l ++ [entry])%list).
Proof.
  intros Hn (Ht & Hsum & Hs & Hall). cbn [accounted].
  rewrite length_app, map_app. cbn [List.length map].
  split; [|split; [|split]].
  - now rewrite Ht.
  - lia.
  - rewrite Hn. apply increasing_snoc; [exact Hs|].
    apply Forall_map. revert Hall. apply Forall_impl. intros; lia.
  - apply Forall_app. split.
    + revert Hall. apply Forall_impl. intros; lia.
    + constructor; [lia | constructor].
Qed.

Lemma accounted_match (card_idx matched total : nat) (l : list mismatch) :
  accounted card_idx (matched, total, l) ->
  accounted (S card_idx) (S matched, S total, l).
Proof.
  intros (Ht & Hsum & Hs & Hall). cbn [accounted].
  split; [|split; [|split]]; try lia; try assumption.
  revert Hall. apply Forall_impl. intros; lia.
Qed.

(** The deep check takes back the entry that the card has just got. *)
Lemma filter_last_entry (card_idx : nat) (l : list mismatch)
    (entry : mismatch) :
  card_number_of entry = card_idx ->
  Forall (fun m => (1 <= card_number_of m < card_idx)%nat) l ->
  filter (fun m => negb (card_number_of m =? card_idx)%nat)
    (l ++ [entry])%list = l.
Proof.
  intros Hn Hall. rewrite filter_app. cbn [filter].
  rewrite Hn, Nat.eqb_refl. cbn [negb]. rewrite app_nil_r.
  induction Hall as [|m l Hm _ IH]; [reflexivity|].
  cbn [filter].
  destruct (Nat.eqb_spec (card_number_of m) card_idx); [lia|].
  cbn [negb]. now rewrite IH.
Qed.

Lemma check_card_accounted (keyword : option string) (threshold : Z)
    (deep : bool) (card_idx : nat) (c : card) (t : tally) :
  accounted card_idx t ->
  accounted (S card_idx) (check_card keyword threshold deep t card_idx c).
Proof.
  destruct t as [[matched total] l]. intros H.
  unfold check_card.
  destruct (extracted c) as [e|m];
    [now apply accounted_mismatch|].
  destruct (negb (truthy (combined_metadata m)));
    [now apply accounted_mismatch|].
  destruct (check_keyword_match keyword (combined_metadata m) threshold)
    as [e|r]; [now apply accounted_mismatch|].
  destruct (is_match r); cbn [negb andb]; [now apply accounted_match|].
  destruct deep; [|now apply accounted_mismatch].
  unfold deep_check_card.
  destruct (dialog c) as [inner|]; [|now apply accounted_mismatch].
  destruct (truthy (strip inner)); [|now apply accounted_mismatch].
  destruct (check_keyword_match keyword (strip inner) threshold) as [e|r'];
    [now apply accounted_mismatch|].
  destruct (is_match r'); [|now apply accounted_mismatch].
  rewrite filter_last_entry; [now apply accounted_match | reflexivity|].
  now destruct H as (_ & _ & _ & Hall).
Qed.

Lemma check_cards_accounted (keyword : option string) (threshold : Z)
    (deep : bool) (cards : list card) :
  forall (card_idx : nat) (t : tally),
    accounted card_idx t ->
    accounted (card_idx + List.length cards)
      (check_cards keyword threshold deep t card_idx cards).
Proof.
  induction cards as [|c rest IH]; intros card_idx t H.
  - now rewrite Nat.add_0_r.
  - cbn [check_cards List.length]. rewrite Nat.add_succ_r.
    apply (IH (S card_idx)). now apply check_card_accounted.
Qed.

Lemma verify_accounted (keyword : option string) (cards : list card)
    (threshold : Z) (deep : bool) :
  accounted (S (Nat.min 150 (List.length (filter is_visible cards))))
    (verify_keyword_in_media_cards keyword cards threshold deep).
Proof.
  unfold verify_keyword_in_media_cards.
  assert (H0 : accounted 1 (0, 0, [])%nat).
  { cbn. split; [|split; [|split]]; constructor. }
  destruct cards as [|c cards]; [exact H0|].
  rewrite <- length_firstn.
  now apply (check_cards_accounted keyword threshold deep _ 1 (0, 0, [])%nat).
Qed.

(** X8: the number of checked cards is the number of visible cards, and
    150 when there are more: a card that cannot be read, or that makes the
    scorer fail, is counted like the others. *)
Theorem X8_total_is_capped (keyword : option string) (cards : list card)
    (threshold : Z) (deep : bool) :
  snd (fst (verify_keyword_in_media_cards keyword cards threshold deep))
  = Nat.min 150 (List.length (filter is_visible cards)).
Proof.
  pose proof (verify_accounted keyword cards threshold deep) as H.
  destruct (verify_keyword_in_media_cards keyword cards threshold deep)
    as [[matched total] l].
  destruct H as (Ht & _). cbn [fst snd]. now injection Ht.
Qed.

(** X9: every checked card is either counted as matched or has exactly one
    entry in the mismatch details, also with the deep check. *)
Theorem X9_every_card_accounted (keyword : option string) (cards : list card)
    (threshold : Z) (deep : bool) :
  let t := verify_keyword_in_media_cards keyword cards threshold deep in
  (fst (fst t) + List.length (snd t))%nat = snd (fst t).
Proof.
  cbv zeta.
  pose proof (verify_accounted keyword cards threshold deep) as H.
  destruct (verify_keyword_in_media_cards keyword cards threshold deep)
    as [[matched total] l].
  now destruct H as (_ & Hsum & _).
Qed.

(** X10: the mismatch details come in the order of the cards: their card
    numbers increase strictly, from 1 at least to the number of checked
    cards at most. *)
Theorem X10_mismatches_in_card_order (keyword : option string)
    (cards : list card) (threshold : Z) (deep : bool) :
  let t := verify_keyword_in_media_cards keyword cards threshold deep in
  StronglySorted lt (map card_number_of (snd t))
  /\ Forall (fun m => (1 <= card_number_of m <= snd (fst t))%nat) (snd t).
Proof.
  cbv zeta.
  pose proof (verify_accounted keyword cards threshold deep) as H.
  destruct (verify_keyword_in_media_cards keyword cards threshold deep)
    as [[matched total] l].
  destruct H as (Ht & _ & Hs & Hall). cbn [fst snd].
  split; [exact Hs|].
  revert Hall. apply Forall_impl. intros; lia.
Qed.

End TallyFacts.

Section TallyCases.

Context {F : fuzz.Lib}.

Import Shape.

Lemma check_card_no_keyword (threshold : Z) (deep : bool) (card_idx : nat)
    (c : card) (total : nat) (l : list mismatch) :
  Forall (fun m => is_no_match m = false) l ->
  exists l',
    check_card None threshold deep (0, total, l)%nat card_idx c
    = (0, S total, l')%nat
    /\ Forall (fun m => is_no_match m = false) l'.
Proof.
  intros Hl. unfold check_card.
  assert (Hsnoc : forall e, is_no_match e = false ->
                            Forall (fun m => is_no_match m = false)
                              (l ++ [e])%list).
  { intros e He. apply Forall_app. split; [exact Hl | now repeat constructor]. }
  destruct (extracted c) as [e|m]; [eexists; split; [reflexivity|]; now apply Hsnoc|].
  destruct (negb (truthy (combined_metadata m))) eqn:Hc;
    [eexists; split; [reflexivity|]; now apply Hsnoc|].
  unfold check_keyword_match. rewrite Hc.
  eexists; split; [reflexivity|]. now apply Hsnoc.
Qed.

Lemma check_cards_no_keyword (threshold : Z) (deep : bool)
    (cards : list card) :
  forall (card_idx total : nat) (l : list mismatch),
    Forall (fun m => is_no_match m = false) l ->
    exists l',
      check_cards None threshold deep (0, total, l)%nat card_idx cards
      = (0, total + List.length cards, l')%nat
      /\ Forall (fun m => is_no_match m = false) l'.
Proof.
  induction cards as [|c rest IH]; intros card_idx total l Hl.
  - exists l. now rewrite Nat.add_0_r.
  - cbn [check_cards List.length].
    destruct (check_card_no_keyword threshold deep card_idx c total l Hl)
      as (l1 & -> & Hl1).
    destruct (IH (S card_idx) (S total) l1 Hl1) as (l2 & -> & Hl2).
    exists l2. split; [f_equal; f_equal; lia | exact Hl2].
Qed.

(** X11: without a keyword ([None]) no card is counted as matched and no
    score is reported: every entry of the mismatch details is a card without
    metadata or a card that could not be read. *)
Theorem X11_no_keyword_no_match (cards : list card) (threshold : Z)
    (deep : bool) :
  let t := verify_keyword_in_media_cards None cards threshold deep in
  fst (fst t) = 0%nat
  /\ Forall (fun m => is_no_match m = false) (snd t).
Proof.
  cbv zeta. unfold verify_keyword_in_media_cards.
  destruct cards as [|c cards]; [now split|].
  destruct (check_cards_no_keyword threshold deep
              (firstn 150 (filter is_visible (c :: cards))) 1 0 []
              (Forall_nil _)) as (l & -> & Hl).
  now split.
Qed.

Lemma check_card_holds_query (k : string) (threshold : Z) (deep : bool)
    (card_idx : nat) (c : card) (matched total : nat) (l : list mismatch) :
  holds_query (strip (lower k)) c ->
  check_card (Some k) threshold deep (matched, total, l) card_idx c
  = (S matched, S total, l).
Proof.
  intros (m & Hm & Hin & Hne). unfold check_card. rewrite Hm.
  assert (Ht : truthy (combined_metadata m) = true).
  { destruct (combined_metadata m); [now elim Hne | reflexivity]. }
  rewrite Ht. cbn [negb].
  rewrite check_keyword_match_stages.
  apply truthy_true in Hne. rewrite Hne, Hin. reflexivity.
Qed.

Lemma check_cards_hold_query (k : string) (threshold : Z) (deep : bool)
    (cards : list card) :
  Forall (holds_query (strip (lower k))) cards ->
  forall (card_idx matched total : nat) (l : list mismatch),
    check_cards (Some k) threshold deep (matched, total, l) card_idx cards
    = (matched + List.length cards, total + List.length cards, l)%nat.
Proof.
  induction 1 as [|c rest Hc _ IH]; intros card_idx matched total l.
  - cbn. now rewrite !Nat.add_0_r.
  - cbn [check_cards List.length].
    rewrite (check_card_holds_query _ _ _ _ _ _ _ _ Hc), IH.
    f_equal; f_equal; lia.
Qed.

Lemma Forall_firstn_keeps {A : Type} (P : A -> Prop) (n : nat) (l : list A) :
  Forall P l -> Forall P (firstn n l).
Proof.
  intros H. revert n.
  induction H as [|x l Hx _ IH]; intros [|n]; cbn; constructor; auto.
Qed.

(** X12: when the metadata of every visible card are read, and their
    normalization is not empty and contains the keyword, lowercased and
    trimmed, every checked card is matched and there is no mismatch entry,
    whatever the threshold and the similarity library. *)
Theorem X12_all_cards_hold_the_keyword (k : string) (cards : list card)
    (threshold : Z) (deep : bool) :
  Forall (fun c => is_visible c = true -> holds_query (strip (lower k)) c)
    cards ->
  let n := Nat.min 150 (List.length (filter is_visible cards)) in
  verify_keyword_in_media_cards (Some k) cards threshold deep = (n, n, []).
Proof.
  intros H n. unfold verify_keyword_in_media_cards.
  destruct cards as [|c cards]; [reflexivity|].
  rewrite check_cards_hold_query.
  - subst n. now rewrite length_firstn.
  - apply Forall_firstn_keeps, Forall_forall. intros x Hx.
    apply filter_In in Hx as [Hx Hv].
    rewrite Forall_forall in H. now apply H.
Qed.

End TallyCases.

(** ** The text searches *)

Section CountFacts.

Lemma count_from_positive (sub s : string) :
  (0 < count_from sub s 0)%nat <-> contains sub s = true /\ s <> EmptyString.
Proof.
  induction s as [|c s IH].
  - cbn [count_from]. split; [lia | now intros [_ H]].
  - cbn [count_from contains].
    destruct (prefix sub (String c s)) eqn:P.
    + split; [intros _; now split | lia].
    + cbn [orb]. rewrite IH. split.
      * intros [H _]. now split.
      * intros [H _]. split; [exact H|].
        destruct s; [|discriminate].
        destruct sub; [discriminate P | discriminate H].
Qed.

(** The keyword is counted at least once exactly when it is in the text. *)
Lemma count_positive (s sub : string) :
  (0 < count s sub)%nat <-> contains sub s = true.
Proof.
  unfold count. destruct sub as [|c sub].
  - rewrite contains_empty. split; [reflexivity | lia].
  - rewrite count_from_positive. split; [now intros [H _]|].
    intros H. split; [exact H|]. intros ->. discriminate H.
Qed.

Lemma split_on_not_nil (sep : ascii) (s : string) : split_on sep s <> [].
Proof.
  induction s as [|c s IH]; cbn [split_on]; [discriminate|].
  destruct (Ascii.eqb c sep); [discriminate|].
  destruct (split_on sep s); discriminate.
Qed.

Lemma length_split_on (sep : ascii) (s : string) :
  (List.length (split_on sep s) <= S (String.length s))%nat.
Proof.
  induction s as [|c s IH]; cbn [split_on String.length]; [cbn; lia|].
  destruct (Ascii.eqb c sep); [cbn [List.length]; lia|].
  destruct (split_on sep s); cbn [List.length] in *; lia.
Qed.

Lemma filter_length_mono {A : Type} (p q : A -> bool) (l : list A) :
  (forall x, p x = true -> q x = true) ->
  (List.length (filter p l) <= List.length (filter q l))%nat.
Proof.
  intros H. induction l as [|x l IH]; [reflexivity|].
  cbn [filter]. destruct (p x) eqn:Hp.
  - rewrite (H x Hp). cbn [List.length]. lia.
  - destruct (q x); cbn [List.length]; lia.
Qed.

End CountFacts.

Section TextSearchFacts.

Context {F : fuzz.Lib}.

Lemma text_matches_lower_threshold (keyword_lower : string) (low high : Z)
    (text : string) :
  (low <= high)%Z ->
  text_matches keyword_lower high text = true ->
  text_matches keyword_lower low text = true.
Proof.
  intros Hle. unfold text_matches.
  destruct (contains _ _); [reflexivity|]. cbn [orb].
  intros H. apply Z.leb_le in H. apply Z.leb_le. lia.
Qed.

Lemma fuzzy_count_le (utils : option utility) (keyword_lower : string)
    (threshold : Z) (text : string) :
  (fuzzy_count utils keyword_lower threshold text <= S (String.length text))%nat.
Proof.
  unfold fuzzy_count, text_blocks.
  etransitivity; [apply filter_length_le|].
  etransitivity; [apply filter_length_le|].
  etransitivity; [apply filter_length_le|].
  rewrite length_map. apply length_split_on.
Qed.

(** X13: with no keyword ([None]) or an empty one, the search in an area
    whose text is ASCII text and has, stripped, five characters or more
    reports one match more than the stripped text, in lower case, has
    characters. *)
Theorem X13_empty_keyword_counts_everywhere (utils : option utility)
    (inner_text : string) (keyword : option string) (threshold : option Z) :
  Shape.is_ascii inner_text = true ->
  keyword = None \/ keyword = Some EmptyString ->
  (5 <= String.length (strip inner_text))%nat ->
  perform_text_search_in_area utils (Some inner_text) keyword threshold
  = S (String.length (lower (strip inner_text))).
Proof.
  intros _ Hk Hlen. unfold perform_text_search_in_area.
  destruct (strip inner_text) as [|c area] eqn:E; [cbn in Hlen; lia|].
  cbn [truthy negb orb].
  destruct (Nat.ltb_spec (String.length (String c area)) 5); [lia|].
  assert (Hkw : lower (match keyword with
                       | Some k => k
                       | None => EmptyString
                       end) = EmptyString)
    by (destruct Hk; now subst).
  rewrite Hkw. unfold count. apply Nat.max_l.
  rewrite length_lower. apply fuzzy_count_le.
Qed.

(** X14: the search in an area reports 0 exactly when the area is missing,
    when its text has less than five characters, or when the keyword is not
    in the text, case apart, and no block that is kept matches. *)
Theorem X14_no_match_in_area (utils : option utility) (area : option string)
    (k : string) (threshold : option Z) :
  perform_text_search_in_area utils area (Some k) threshold = 0%nat
  <->
  match area with
  | None => True
  | Some inner_text =>
      (String.length (strip inner_text) < 5)%nat
      \/ (contains (lower k) (lower (strip inner_text)) = false
          /\ fuzzy_count utils (lower k) (threshold_of utils threshold)
               (strip inner_text) = 0%nat)
  end.
Proof.
  unfold perform_text_search_in_area.
  destruct area as [inner_text|]; [|tauto].
  destruct (strip inner_text) as [|c area] eqn:E.
  - cbn. split; [left; lia | reflexivity].
  - cbn [truthy negb orb].
    destruct (Nat.ltb_spec (String.length (String c area)) 5) as [Hs|Hs].
    + split; [now left | reflexivity].
    + pose proof (count_positive (lower (String c area)) (lower k)) as Hc.
      destruct (contains (lower k) (lower (String c area))).
      * split; [|intros [?|[? _]]; [lia | discriminate]].
        destruct Hc as [_ Hc]. specialize (Hc eq_refl). lia.
      * split.
        -- intros H. right. split; [reflexivity | lia].
        -- intros [?|[_ Hf]]; [lia|]. rewrite Hf, Nat.max_0_r.
           destruct (count _ _) eqn:Hn; [reflexivity|].
           destruct Hc as [Hc _]. assert (false = true) by (apply Hc; lia).
           discriminate.
Qed.

Lemma fuzzy_count_with_empty_noise (utils : option utility)
    (keyword_lower : string) (threshold : Z) (text : string) :
  In EmptyString (noise_words_of utils) ->
  fuzzy_count utils keyword_lower threshold text = 0%nat.
Proof.
  intros Hin. unfold fuzzy_count.
  assert (Hnone : forall l, filter (keep_block (noise_words_of utils)) l = []).
  { intros l. induction l as [|b l IH]; [reflexivity|].
    cbn [filter]. unfold keep_block at 1.
    assert (Hex : existsb (fun noise => contains noise (lower b))
                    (noise_words_of utils) = true).
    { apply existsb_exists. exists EmptyString. split; [exact Hin|].
      apply contains_empty. }
    now rewrite Hex. }
  now rewrite Hnone.
Qed.

(** X15: an empty word in the list of noise words makes every block noise:
    the search in an area then reports 0 when the text of the area,
    stripped, has less than five characters, and otherwise the number of
    occurrences of the keyword in the text, and nothing more. *)
Theorem X15_empty_noise_word (u : utility) (inner_text : string)
    (keyword : option string) (threshold : option Z) :
  In EmptyString (utils_NOISE_WORDS u) ->
  perform_text_search_in_area (Some u) (Some inner_text) keyword threshold
  = if (String.length (strip inner_text) <? 5)%nat then 0%nat
    else count (lower (strip inner_text))
           (lower (match keyword with Some k => k | None => EmptyString end)).
Proof.
  intros Hin. unfold perform_text_search_in_area.
  destruct (strip inner_text) as [|c area] eqn:E; [reflexivity|].
  cbn [truthy negb orb].
  destruct (String.length (String c area) <? 5)%nat; [reflexivity|].
  rewrite fuzzy_count_with_empty_noise by exact Hin.
  apply Nat.max_0_r.
Qed.

(** X16: a higher threshold never reports more matches, in the search in an
    area and in the search in the page. *)
Theorem X16_text_search_threshold (utils : option utility)
    (text : option string) (keyword : string) (low high : Z) :
  (low <= high)%Z ->
  (perform_text_search_in_area utils text (Some keyword) (Some high)
   <= perform_text_search_in_area utils text (Some keyword) (Some low))%nat
  /\ (perform_text_based_search utils text keyword (Some high)
      <= perform_text_based_search utils text keyword (Some low))%nat.
Proof.
  intros Hle.
  assert (Hf : forall t,
             (fuzzy_count utils (lower keyword) high t
              <= fuzzy_count utils (lower keyword) low t)%nat).
  { intros t. unfold fuzzy_count. apply filter_length_mono.
    intros b. now apply text_matches_lower_threshold. }
  unfold perform_text_search_in_area, perform_text_based_search.
  cbn [threshold_of].
  destruct text as [t|]; [|split; reflexivity]. split.
  - destruct (_ || _); [reflexivity|].
    apply Nat.max_le_compat_l, Hf.
  - destruct (_ || _); [reflexivity|].
    apply Nat.max_le_compat_l, Hf.
Qed.

(** X17: [fuzzy_keyword_match] counts at least the texts that contain the
    keyword, case apart, and at most all the texts; its total is the number
    of texts; and a higher threshold never counts more. *)
Theorem X17_fuzzy_keyword_match_bounds (self_threshold : Z)
    (texts : list string) (keyword : string) (threshold : option Z)
    (low high : Z) :
  let '(matches, total) :=
    fuzzy_keyword_match self_threshold texts keyword threshold in
  (List.length
     (filter (fun text => contains (lower keyword) (lower text)) texts)
   <= matches <= total)%nat
  /\ total = List.length texts
  /\ ((low <= high)%Z ->
      (fst (fuzzy_keyword_match self_threshold texts keyword (Some high))
       <= fst (fuzzy_keyword_match self_threshold texts keyword (Some low)))%nat).
Proof.
  unfold fuzzy_keyword_match. cbn [fst].
  split; [split|split].
  - apply filter_length_mono. intros t Ht. unfold text_matches.
    now rewrite Ht.
  - apply filter_length_le.
  - reflexivity.
  - intros Hle. apply filter_length_mono. intros t.
    now apply text_matches_lower_threshold.
Qed.

End TextSearchFacts.

(** ** The configuration *)

Section ConfigFacts.

Variable getenv : string -> option string.
Variable int_of_str : string -> option Z.

(** X20: the threshold of a run is 0 exactly when 0 is given on the command
    line: a 0 of the environment, like a value that is missing or is no
    integer, gives way to 70. *)
Theorem X20_threshold_zero_only_from_command_line (arg_threshold : option Z) :
  Config.run_threshold getenv int_of_str arg_threshold = 0%Z
  <-> arg_threshold = Some 0%Z.
Proof.
  unfold Config.run_threshold, Config.FUZZY_THRESHOLD,
    Config.ELASTIC_SEARCH_FUZZY_THRESHOLD, Config._get_int.
  destruct arg_threshold as [t|].
  - split; congruence.
  - split; [|discriminate].
    destruct (getenv _) as [value|]; [|discriminate].
    destruct (int_of_str value) as [[|n|n]|]; discriminate.
Qed.

(** X21: the keyword of a run that is started through [main] is never
    empty: an empty keyword of the command line and an empty default of the
    environment both give way to "news".  [run] itself, called with the
    empty string, keeps it. *)
Theorem X21_run_keyword_not_empty :
  (forall arg_keyword : option string,
      truthy (Config.run_keyword getenv (Config.main_keyword arg_keyword))
      = true)
  /\ Config.run_keyword getenv (Some EmptyString) = EmptyString.
Proof.
  split; [|reflexivity]. intros arg_keyword.
  unfold Config.run_keyword, Config.main_keyword, Config.DEFAULT_KEYWORD,
    Config.ELASTIC_SEARCH_DEFAULT_KEYWORD, or_else.
  destruct arg_keyword as [[|c k]|]; cbn [truthy];
    try reflexivity;
    destruct (getenv _) as [[|c v]|]; reflexivity.
Qed.

Lemma split_on_pieces (sep : ascii) (s : string) :
  Forall (fun piece =>
            Shape.all_chars (fun c => negb (Ascii.eqb c sep)) piece = true)
    (split_on sep s).
Proof.
  induction s as [|c s IH]; cbn [split_on]; [now repeat constructor|].
  destruct (Ascii.eqb c sep) eqn:E; [now constructor|].
  destruct (split_on sep s) as [|piece rest].
  - repeat constructor. cbn. now rewrite E.
  - inversion IH; subst. constructor; [|assumption].
    cbn. now rewrite E.
Qed.

Lemma split_on_count (sep : ascii) (s : string) :
  List.length (split_on sep s) = S (count s (String sep EmptyString)).
Proof.
  unfold count.
  induction s as [|c s IH]; [reflexivity|].
  cbn [split_on count_from prefix String.length Nat.sub].
  destruct (Ascii.eqb_spec c sep) as [->|Hne].
  - destruct (ascii_dec sep sep) as [_|N]; [|now elim N].
    assert (Hp : prefix EmptyString s = true) by now destruct s.
    rewrite Hp. cbn [List.length]. now rewrite IH.
  - destruct (ascii_dec sep c) as [E|_]; [now elim Hne|].
    pose proof (split_on_not_nil sep s).
    destruct (split_on sep s); [congruence|]. exact IH.
Qed.

(** X22: there is one noise word more than there are commas in the
    configured string, so there is always one; no noise word holds a comma,
    and none starts or ends with white space. *)
Theorem X22_noise_words_shape :
  List.length (Config.NOISE_WORDS getenv)
  = S (count (Config.noise_words_str getenv) ",")
  /\ Forall (fun word =>
               strip word = word
               /\ Shape.all_chars (fun c => negb (Ascii.eqb c ",")) word = true)
       (Config.NOISE_WORDS getenv).
Proof.
  unfold Config.NOISE_WORDS. split.
  - rewrite length_map. apply split_on_count.
  - apply Forall_map.
    generalize (split_on_pieces "," (Config.noise_words_str getenv)).
    apply Forall_impl. intros piece H. split.
    + apply strip_idempotent.
    + now apply all_chars_strip.
Qed.

(** X23: when a piece of the configured noise words is empty or white space,
    as after a comma at the end, the search in an area counts no block: it
    reports 0 when the text of the area, stripped, has less than five
    characters, and otherwise the number of occurrences of the keyword in
    the text. *)
Theorem X23_blank_noise_word_from_environment {F : fuzz.Lib}
    (value piece inner_text : string) (keyword : option string)
    (threshold : option Z) :
  getenv "ELASTIC_SEARCH_NOISE_WORDS" = Some value ->
  value <> EmptyString ->
  In piece (split_on "," value) ->
  strip piece = EmptyString ->
  perform_text_search_in_area (Some (_load_config getenv int_of_str))
    (Some inner_text) keyword threshold
  = if (String.length (strip inner_text) <? 5)%nat then 0%nat
    else count (lower (strip inner_text))
           (lower (match keyword with Some k => k | None => EmptyString end)).
Proof.
  intros Henv Hne Hin Hblank. unfold perform_text_search_in_area.
  destruct (strip inner_text) as [|c area] eqn:E; [reflexivity|].
  cbn [truthy negb orb].
  destruct (String.length (String c area) <? 5)%nat; [reflexivity|].
  rewrite fuzzy_count_with_empty_noise; [apply Nat.max_0_r|].
  cbn [noise_words_of _load_config utils_NOISE_WORDS].
  unfold Config.NOISE_WORDS, Config.noise_words_str,
    Config.ELASTIC_SEARCH_NOISE_WORDS.
  rewrite Henv. unfold or_else.
  destruct value; [now elim Hne|]. cbn [truthy].
  rewrite <- Hblank. now apply in_map.
Qed.

End ConfigFacts.

(** ** The deep check *)

Section DeepCheck.

Context {F : fuzz.Lib}.

Lemma deep_check_card_effect (keyword : option string) (threshold : Z)
    (card_idx : nat) (c : card) (matched total : nat) (l : list mismatch) :
  exists (matched' : nat) (l' : list mismatch),
    deep_check_card keyword threshold card_idx c (matched, total, l)
    = (matched', total, l')
    /\ (matched <= matched')%nat.
Proof.
  unfold deep_check_card.
  destruct (dialog c) as [inner|]; [|now exists matched, l].
  destruct (truthy (strip inner)); [|now exists matched, l].
  destruct (check_keyword_match keyword (strip inner) threshold) as [e|r];
    [now exists matched, l|].
  destruct (is_match r); [|now exists matched, l].
  eexists _, _. split; [reflexivity | lia].
Qed.

Lemma check_card_deep (keyword : option string) (threshold : Z)
    (card_idx : nat) (c : card) (m0 m1 total : nat) (l0 l1 : list mismatch) :
  (m0 <= m1)%nat ->
  exists (m0' m1' : nat) (l0' l1' : list mismatch),
    check_card keyword threshold false (m0, total, l0) card_idx c
    = (m0', S total, l0')
    /\ check_card keyword threshold true (m1, total, l1) card_idx c
       = (m1', S total, l1')
    /\ (m0' <= m1')%nat.
Proof.
  intros Hle. unfold check_card.
  destruct (extracted c) as [e|m];
    [eexists _, _, _, _; repeat split; exact Hle|].
  destruct (negb (truthy (combined_metadata m)));
    [eexists _, _, _, _; repeat split; exact Hle|].
  destruct (check_keyword_match keyword (combined_metadata m) threshold)
    as [e|r]; [eexists _, _, _, _; repeat split; exact Hle|].
  destruct (is_match r); cbn [negb andb].
  - eexists _, _, _, _. repeat split. lia.
  - match goal with
    | |- context [deep_check_card ?k ?t ?i ?c (?a, ?b, ?d)] =>
        destruct (deep_check_card_effect k t i c a b d) as (m' & l' & -> & Hm)
    end.
    eexists _, _, _, _. repeat split. lia.
Qed.

Lemma check_cards_deep (keyword : option string) (threshold : Z)
    (cards : list card) :
  forall (card_idx m0 m1 total : nat) (l0 l1 : list mismatch),
    (m0 <= m1)%nat ->
    (fst (fst (check_cards keyword threshold false (m0, total, l0) card_idx
                 cards))
     <= fst (fst (check_cards keyword threshold true (m1, total, l1) card_idx
                   cards)))%nat.
Proof.
  induction cards as [|c rest IH]; intros card_idx m0 m1 total l0 l1 Hle.
  - exact Hle.
  - cbn [check_cards].
    destruct (check_card_deep keyword threshold card_idx c m0 m1 total l0 l1
                Hle) as (m0' & m1' & l0' & l1' & -> & -> & Hle').
    now apply IH.
Qed.

(** X24: the deep check never takes a match away: with it the count of
    matched cards is at least the count without it. *)
Theorem X24_deep_check_only_adds (keyword : option string)
    (cards : list card) (threshold : Z) :
  (fst (fst (verify_keyword_in_media_cards keyword cards threshold false))
   <= fst (fst (verify_keyword_in_media_cards keyword cards threshold true)))%nat.
Proof.
  unfold verify_keyword_in_media_cards.
  destruct cards as [|c cards]; [reflexivity|].
  now apply check_cards_deep.
Qed.

End DeepCheck.

(** ** The further theorems on concrete inputs *)

Section ConcreteMore.

Import Sample Examples.

Lemma X2_witness :
  Shape.is_ascii "Budget  REPORT.pdf  12:30" = true
  /\ (String.length (clean_text "Budget  REPORT.pdf  12:30")
      <= String.length "Budget  REPORT.pdf  12:30")%nat.
Proof.
  split; [reflexivity|].
  apply (X2_clean_text_length "Budget  REPORT.pdf  12:30"). reflexivity.
Defined.

Lemma X4_witness :
  check_keyword_match (Some "xyzzy") "Weather Update" 70
  = check_keyword_match (Some "xyzzy") "Weather Update" 50.
Proof.
  apply X4_thresholds_from_50_agree. lia.
Defined.

Lemma X5_witness :
  best_score (MatchResult true 25%Q (Some PartialRatio))
  = best_score (MatchResult false 25%Q (Some PartialRatio))
  /\ method_used (MatchResult true 25%Q (Some PartialRatio))
     = method_used (MatchResult false 25%Q (Some PartialRatio))
  /\ (is_match (MatchResult false 25%Q (Some PartialRatio)) = true ->
      is_match (MatchResult true 25%Q (Some PartialRatio)) = true).
Proof.
  apply (X5_threshold_only_decides (Some "abcd") "axyz wvu" 20 30).
  - lia.
  - vm_compute. reflexivity.
  - vm_compute. reflexivity.
Defined.

Lemma X6_witness :
  (0 <= best_score (MatchResult true (word_match_percentage 3 4)
                      (Some PartialWordsMatch)) <= 100)%Q.
Proof.
  apply (X6_score_range (Some "live cricket match today")
           "Cricket: the match is live" 70).
  - exact shared_characters_in_range.
  - vm_compute. reflexivity.
Defined.

Lemma X7_witness :
  is_match (MatchResult true (word_match_percentage 3 4)
              (Some PartialWordsMatch)) = true
  /\ (4 <= List.length (split (strip (lower "live cricket match today"))))%nat
  /\ (70 <= best_score (MatchResult true (word_match_percentage 3 4)
                          (Some PartialWordsMatch)))%Q
  /\ (best_score (MatchResult true (word_match_percentage 3 4)
                    (Some PartialWordsMatch)) < 100)%Q.
Proof.
  apply (X7_partial_words_need_four "live cricket match today"
           "Cricket: the match is live" 70).
  - vm_compute. reflexivity.
  - reflexivity.
Defined.

Lemma X12_witness :
  verify_keyword_in_media_cards (Some " News ")
    [readable "Breaking News Today";
     Card false (inr (only_title "Weather")) None;
     readable "The news at nine.mp4"] 70 false
  = (2, 2, [])%nat.
Proof.
  apply (X12_all_cards_hold_the_keyword " News "
           [readable "Breaking News Today";
            Card false (inr (only_title "Weather")) None;
            readable "The news at nine.mp4"] 70 false).
  repeat constructor.
  - intros _. exists (only_title "Breaking News Today").
    split; [reflexivity|]. split; [vm_compute; reflexivity|].
    vm_compute; discriminate.
  - intros H. discriminate H.
  - intros _. exists (only_title "The news at nine.mp4").
    split; [reflexivity|]. split; [vm_compute; reflexivity|].
    vm_compute; discriminate.
Defined.

Lemma X13_witness :
  perform_text_search_in_area None (Some " Weather Update ") None None
  = 15%nat.
Proof.
  apply (X13_empty_keyword_counts_everywhere None " Weather Update " None None).
  - reflexivity.
  - now left.
  - vm_compute. lia.
Defined.

Lemma X15_witness :
  perform_text_search_in_area (Some (Utility 70 ["mp4"; ""]))
    (Some "Breaking news today") (Some "News") None
  = 1%nat.
Proof.
  apply (X15_empty_noise_word (Utility 70 ["mp4"; ""]) "Breaking news today"
           (Some "News") None).
  right. now left.
Defined.

Lemma X16_witness :
  (perform_text_search_in_area None (Some "abcx today") (Some "abcd")
     (Some 80%Z)
   <= perform_text_search_in_area None (Some "abcx today") (Some "abcd")
        (Some 30%Z))%nat
  /\ (perform_text_based_search None (Some "abcx today") "abcd" (Some 80%Z)
      <= perform_text_based_search None (Some "abcx today") "abcd"
           (Some 30%Z))%nat.
Proof.
  apply (X16_text_search_threshold None (Some "abcx today") "abcd" 30 80).
  lia.
Defined.

Lemma X23_witness :
  perform_text_search_in_area
    (Some (_load_config comma_at_the_end (fun _ => None)))
    (Some "Breaking news today") (Some "News") None
  = count "breaking news today" "news".
Proof.
  apply (X23_blank_noise_word_from_environment comma_at_the_end
           (fun _ => None) "mp4,pdf," "" "Breaking news today" (Some "News")
           None).
  - reflexivity.
  - discriminate.
  - vm_compute. right. right. now left.
  - reflexivity.
Defined.

End ConcreteMore.

(** ** The one-time password *)

Section Otp.

Lemma is_digit_is_word (c : ascii) : is_digit c = true -> is_word c = true.
Proof. unfold is_word. now intros ->. Qed.

Lemma search_otp (s : string) :
  forall (before : option ascii) (otp : string),
    search match_otp before s = Some otp ->
    exists pre post : string,
      s = pre ++ otp ++ post
      /\ String.length otp = 6%nat
      /\ all_digits otp = true
      /\ word_at (last_of before pre) = false
      /\ word_at (get 0 post) = false.
Proof.
  induction s as [|c s IH]; intros before otp H.
  - cbn [search] in H. unfold match_otp in H. cbn in H.
    rewrite andb_false_r in H. discriminate H.
  - cbn [search] in H.
    destruct (match_otp before (String c s)) as [n|] eqn:M.
    + injection H as <-. unfold match_otp in M.
      destruct (boundary_at before (String c s) 0) eqn:B0; [|discriminate].
      destruct (forallb _ _) eqn:D; [|discriminate].
      destruct (boundary_at before (String c s) 6) eqn:B6; [|discriminate].
      injection M as <-.
      destruct s as [|c2 [|c3 [|c4 [|c5 [|c6 r]]]]]; cbn in D;
        rewrite ?andb_false_r in D; try discriminate D.
      repeat (apply andb_true_iff in D as [? D]).
      exists EmptyString, r. cbn [append substring].
      replace (substring 0 0 r) with EmptyString by now destruct r.
      split; [reflexivity|]. split; [reflexivity|].
      pose proof (is_digit_is_word c) as Wc.
      pose proof (is_digit_is_word c6) as Wc6.
      unfold boundary_at, boundary in B0, B6.
      cbn [get word_at last_of] in B0, B6 |- *.
      rewrite Wc in B0 by assumption. rewrite Wc6 in B6 by assumption.
      split;
        [cbn [all_digits];
         repeat match goal with
                | E : is_digit ?x = true |- _ => rewrite E; clear E
                end; reflexivity|].
      split; [now destruct (word_at before)|].
      now destruct (word_at (get 0 r)).
    + destruct (IH (Some c) otp H) as (pre & post & -> & Hl & Hd & Hb & Ha).
      exists (String c pre), post. cbn [append].
      repeat split; try assumption.
      now rewrite <- (last_of_cons before).
Qed.

(** X25: the one-time password that is read from the body of a message in
    ASCII text has six characters, all of them digits 0 to 9, and stands in
    the body between two characters that are no letter, digit or underscore,
    or at an end. *)
Theorem X25_otp_is_six_digits (body otp : string) :
  Shape.is_ascii body = true ->
  find_otp body = Some otp ->
  String.length otp = 6%nat
  /\ all_digits otp = true
  /\ exists pre post : string,
       body = pre ++ otp ++ post
       /\ word_at (last_of None pre) = false
       /\ word_at (get 0 post) = false.
Proof.
  intros _ H. destruct (search_otp body None otp H)
    as (pre & post & E & Hl & Hd & Hb & Ha).
  split; [exact Hl|]. split; [exact Hd|]. now exists pre, post.
Qed.

End Otp.

Section ConcreteOtp.

Lemma X25_witness :
  String.length "654321" = 6%nat
  /\ all_digits "654321" = true
  /\ exists pre post : string,
       "code:1234567 then 654321" = pre ++ "654321" ++ post
       /\ word_at (last_of None pre) = false
       /\ word_at (get 0 post) = false.
Proof.
  apply (X25_otp_is_six_digits "code:1234567 then 654321" "654321");
    vm_compute; reflexivity.
Defined.

End ConcreteOtp.

(** ** Cards are judged one by one *)

Section Independence.

Context {F : fuzz.Lib}.

(** What a card adds to the count of matched cards depends on the card
    alone, not on the tally or on the number of the card. *)
Lemma check_card_gain (keyword : option string) (threshold : Z) (deep : bool)
    (c : card) :
  exists gain : nat,
    forall (matched total card_idx : nat) (l : list mismatch),
    exists l' : list mismatch,
      check_card keyword threshold deep (matched, total, l) card_idx c
      = (matched + gain, S total, l')%nat.
Proof.
  unfold check_card.
  destruct (extracted c) as [e|m];
    [exists 0%nat; intros; eexists; now rewrite Nat.add_0_r|].
  destruct (negb (truthy (combined_metadata m)));
    [exists 0%nat; intros; eexists; now rewrite Nat.add_0_r|].
  destruct (check_keyword_match keyword (combined_metadata m) threshold)
    as [e|r]; [exists 0%nat; intros; eexists; now rewrite Nat.add_0_r|].
  destruct (is_match r); cbn [negb andb];
    [exists 1%nat; intros; eexists; now rewrite Nat.add_1_r|].
  destruct deep; [|exists 0%nat; intros; eexists; now rewrite Nat.add_0_r].
  unfold deep_check_card.
  destruct (dialog c) as [inner|];
    [|exists 0%nat; intros; eexists; now rewrite Nat.add_0_r].
  destruct (truthy (strip inner));
    [|exists 0%nat; intros; eexists; now rewrite Nat.add_0_r].
  destruct (check_keyword_match keyword (strip inner) threshold) as [e|r'];
    [exists 0%nat; intros; eexists; now rewrite Nat.add_0_r|].
  destruct (is_match r');
    [exists 1%nat; intros; eexists; now rewrite Nat.add_1_r
    |exists 0%nat; intros; eexists; now rewrite Nat.add_0_r].
Qed.

Lemma check_cards_gain (keyword : option string) (threshold : Z) (deep : bool)
    (cards : list card) :
  exists gain : nat,
    forall (matched total card_idx : nat) (l : list mismatch),
    exists l' : list mismatch,
      check_cards keyword threshold deep (matched, total, l) card_idx cards
      = (matched + gain, total + List.length cards, l')%nat.
Proof.
  induction cards as [|c rest (g_rest & Hrest)].
  - exists 0%nat. intros. exists l. cbn. now rewrite !Nat.add_0_r.
  - destruct (check_card_gain keyword threshold deep c) as (g & Hc).
    exists (g + g_rest)%nat. intros matched total card_idx l.
    cbn [check_cards List.length].
    destruct (Hc matched total card_idx l) as (l1 & ->).
    destruct (Hrest (matched + g)%nat (S total) (S card_idx) l1) as (l2 & ->).
    exists l2. f_equal; f_equal; lia.
Qed.

Lemma check_cards_app (keyword : option string) (threshold : Z) (deep : bool)
    (a b : list card) :
  forall (t : tally) (card_idx : nat),
    check_cards keyword threshold deep t card_idx (a ++ b)
    = check_cards keyword threshold deep
        (check_cards keyword threshold deep t card_idx a)
        (card_idx + List.length a) b.
Proof.
  induction a as [|c a IH]; intros t card_idx.
  - cbn. now rewrite Nat.add_0_r.
  - cbn [app check_cards List.length]. rewrite IH.
    now replace (card_idx + S (List.length a))%nat
      with (S card_idx + List.length a)%nat by lia.
Qed.

Lemma verify_as_check_cards (keyword : option string) (cards : list card)
    (threshold : Z) (deep : bool) :
  verify_keyword_in_media_cards keyword cards threshold deep
  = check_cards keyword threshold deep (0, 0, [])%nat 1
      (firstn 150 (filter is_visible cards)).
Proof. now destruct cards. Qed.

(** X26: the cards are judged one by one: as long as no more than 150 cards
    are visible, the counts of matched and of checked cards of two batches
    put together are the sums of the counts of the batches. *)
Theorem X26_counts_add_up (keyword : option string) (cards1 cards2 : list card)
    (threshold : Z) (deep : bool) :
  (List.length (filter is_visible (cards1 ++ cards2)) <= 150)%nat ->
  let whole :=
    verify_keyword_in_media_cards keyword (cards1 ++ cards2) threshold deep in
  let first := verify_keyword_in_media_cards keyword cards1 threshold deep in
  let second := verify_keyword_in_media_cards keyword cards2 threshold deep in
  fst (fst whole) = (fst (fst first) + fst (fst second))%nat
  /\ snd (fst whole) = (snd (fst first) + snd (fst second))%nat.
Proof.
  intros Hlen. cbv zeta. rewrite !verify_as_check_cards.
  rewrite filter_app in Hlen |- *.
  rewrite (firstn_all2 _ Hlen). rewrite length_app in Hlen.
  rewrite !firstn_all2 by lia.
  rewrite check_cards_app.
  destruct (check_cards_gain keyword threshold deep (filter is_visible cards1))
    as (g1 & H1).
  destruct (check_cards_gain keyword threshold deep (filter is_visible cards2))
    as (g2 & H2).
  destruct (H1 0 0 1 [])%nat as (l1 & E1). rewrite E1.
  destruct (H2 (0 + g1) (0 + List.length (filter is_visible cards1))
              (1 + List.length (filter is_visible cards1)) l1)%nat
    as (l2 & E2). rewrite E2.
  destruct (H2 0 0 1 [])%nat as (l3 & E3). rewrite E3.
  cbn [fst snd]. lia.
Qed.

End Independence.

Section ConcreteIndependence.

Import Sample Examples.

Lemma X26_witness :
  fst (fst (verify_keyword_in_media_cards (Some "news")
              ([readable "Breaking News"] ++ [readable "qqq"; readable "News"])
              70 false))
  = (fst (fst (verify_keyword_in_media_cards (Some "news")
                 [readable "Breaking News"] 70 false))
     + fst (fst (verify_keyword_in_media_cards (Some "news")
                   [readable "qqq"; readable "News"] 70 false)))%nat
  /\ snd (fst (verify_keyword_in_media_cards (Some "news")
                 ([readable "Breaking News"] ++ [readable "qqq"; readable "News"])
                 70 false))
     = (snd (fst (verify_keyword_in_media_cards (Some "news")
                    [readable "Breaking News"] 70 false))
        + snd (fst (verify_keyword_in_media_cards (Some "news")
                      [readable "qqq"; readable "News"] 70 false)))%nat.
Proof.
  apply (X26_counts_add_up (Some "news") [readable "Breaking News"]
           [readable "qqq"; readable "News"] 70 false).
  vm_compute. lia.
Defined.

End ConcreteIndependence.
